(** * Dynamic-2DGS: mesh extraction driver

    A shallow embedding of [utils/mesh_utils.py] and of the [__main__]
    block of [render_mesh_trajectory.py].

    Tensors are nested lists of rationals (the idealised, finite values of
    the float tensors of the source).  Python exceptions are an error type;
    stateful code threads an explicit world: the extractor object, the heap
    of mesh objects, the file system and a trace of the calls that print,
    render or write a video.  The renderer, the deformation network, Open3D's
    volume integration and mesh clean-up and the image codecs are external to
    the repository: they are the fields of the class [Externals]. *)

From Stdlib Require Import QArith ZArith Ascii String List DecimalString Lia.
From stdpp Require Import gmap strings list.

Local Open Scope string_scope.
Local Open Scope list_scope.

(** ** Python results *)

Inductive exn :=
| TypeError (msg : string)
| AttributeError (msg : string)
| UnboundLocalError (var : string)
| RuntimeError (msg : string)
| IndexError (msg : string)
| ZeroDivisionError
| ValueError (msg : string)
| FileNotFoundError (path : string).

Inductive result (A : Type) :=
| Ok (a : A)
| Raise (e : exn).
Arguments Ok {A} a.
Arguments Raise {A} e.

Definition rbind {A B} (r : result A) (k : A -> result B) : result B :=
  match r with
  | Ok a => k a
  | Raise e => Raise e
  end.

Fixpoint rmapM {A B} (f : A -> result B) (l : list A) : result (list B) :=
  match l with
  | [] => Ok []
  | x :: tl => rbind (f x) (fun y => rbind (rmapM f tl) (fun ys => Ok (y :: ys)))
  end.

(** ** Tensors *)

Definition tensor1 := list Q.
Definition tensor2 := list (list Q).
Definition tensor3 := list (list (list Q)).

Definition shape3 (t : tensor3) : list nat :=
  [length t; length (hd [] t); length (hd [] (hd [] t))].

(** [torch.clamp(x, lo, hi)] is [min(max(x, lo), hi)] on every element. *)
Definition Qclamp (lo hi x : Q) : Q :=
  let y := if Qle_bool lo x then x else lo in
  if Qle_bool y hi then y else hi.

Definition clamp (lo hi : Q) (t : tensor3) : tensor3 :=
  map (map (map (Qclamp lo hi))) t.

(** [torch.cat([a, b])] along dimension 0: the other dimensions must agree. *)
Definition cat (a b : tensor3) : result tensor3 :=
  if decide (tail (shape3 a) = tail (shape3 b)) then Ok (a ++ b)
  else Raise (RuntimeError "Sizes of tensors must match except in dimension 0").

(** [torch.stack(l, dim=0)]: the list is not empty and all shapes agree. *)
Definition stack (l : list tensor3) : result (list tensor3) :=
  match l with
  | [] => Raise (RuntimeError "stack expects a non-empty TensorList")
  | t :: tl =>
      if forallb (fun u => bool_decide (shape3 u = shape3 t)) tl then Ok l
      else Raise (RuntimeError "stack expects each tensor to be equal size")
  end.

(** [t.permute(1, 2, 0)] of a C x H x W tensor: element [h][w][c] is
    [t[c][h][w]]. *)
Definition permute_1_2_0 (t : tensor3) : tensor3 :=
  let C := length t in
  let H := length (hd [] t) in
  let W := length (hd [] (hd [] t)) in
  map (fun h =>
         map (fun w => map (fun c => nth w (nth h (nth c t []) []) 0%Q) (seq 0 C))
             (seq 0 W))
      (seq 0 H).

(** [m.T] of a matrix. *)
Definition transpose (m : tensor2) : tensor2 :=
  map (fun j => map (fun row => nth j row 0%Q) m) (seq 0 (length (hd [] m))).

(** Conversion of a float to [np.uint8]: the fraction is dropped.  Values
    from 0 to 255, the only ones a clamped colour produces, are kept; the
    model wraps the others. *)
Definition Qtruncate (q : Q) : Z := Z.quot (Qnum q) (Zpos (Qden q)).

Definition to_uint8 (q : Q) : Z := (Qtruncate q) mod 256.

Definition image8 := list (list (list Z)).

(** [np.asarray(rgb.permute(1, 2, 0).cpu().numpy() * 255, dtype=np.uint8)] *)
Definition rgb_to_uint8 (rgb : tensor3) : image8 :=
  map (map (map (fun v => to_uint8 (v * 255)%Q))) (permute_1_2_0 rgb).

(** [depth[mask < 0.5] = 0] with a mask of the shape of [depth]: boolean-mask
    assignment raises [IndexError] when the shapes differ. *)
Definition mask_value (d m : Q) : Q :=
  if Qle_bool (1 # 2) m then d else 0%Q.

Fixpoint mask_row (d m : list Q) : option (list Q) :=
  match d, m with
  | [], [] => Some []
  | x :: d', y :: m' => cons (mask_value x y) <$> mask_row d' m'
  | _, _ => None
  end.

Fixpoint mask_plane (d m : list (list Q)) : option (list (list Q)) :=
  match d, m with
  | [], [] => Some []
  | x :: d', y :: m' =>
      match mask_row x y, mask_plane d' m' with
      | Some r, Some p => Some (r :: p)
      | _, _ => None
      end
  | _, _ => None
  end.

Fixpoint mask_tensor (d m : tensor3) : option tensor3 :=
  match d, m with
  | [], [] => Some []
  | x :: d', y :: m' =>
      match mask_plane x y, mask_tensor d' m' with
      | Some r, Some p => Some (r :: p)
      | _, _ => None
      end
  | _, _ => None
  end.

Definition mask_below_half (depth mask : tensor3) : result tensor3 :=
  match mask_tensor depth mask with
  | Some d => Ok d
  | None => Raise (IndexError "The shape of the mask does not match the shape of the indexed tensor")
  end.

(** ** Strings built by the scripts *)

(** [str(n)] of a non-negative integer. *)
Definition str (n : nat) : string := NilZero.string_of_uint (Nat.to_uint n).

Fixpoint zeros (n : nat) : string :=
  match n with
  | O => ""
  | S k => String "0"%char (zeros k)
  end.

(** [s.zfill(width)] of a string without sign. *)
Definition zfill (width : nat) (s : string) : string :=
  zeros (width - String.length s) ++ s.

Definition starts_with_slash (s : string) : bool :=
  match s with
  | String "/"%char _ => true
  | _ => false
  end.

Fixpoint ends_with_slash (s : string) : bool :=
  match s with
  | "" => false
  | String c "" => bool_decide (c = "/"%char)
  | String _ tl => ends_with_slash tl
  end.

(** [os.path.join(a, b)] on a POSIX system. *)
Definition path_join (a b : string) : string :=
  if starts_with_slash b then b
  else if bool_decide (a = "") || ends_with_slash a then a ++ b
  else a ++ "/" ++ b.

(** ** Data of the scene and of Open3D *)

Record Camera := {
  image_width : Z;
  image_height : Z;
  FoVx : Q;
  FoVy : Q;
  world_view_transform : tensor2;
  gt_alpha_mask : option tensor3;
  original_image : tensor3;
  fid : tensor1;
  time : Q;
  R : tensor2;
  T : tensor1
}.

Record GaussianModel := {
  get_xyz : tensor2;
  feature : tensor2;
  motion_mask : tensor2;
  active_sh_degree : Z
}.

Definition set_active_sh_degree (d : Z) (g : GaussianModel) : GaussianModel :=
  {| get_xyz := get_xyz g; feature := feature g; motion_mask := motion_mask g;
     active_sh_degree := d |}.

Record d_values := {
  d_xyz : tensor2;
  d_rotation : tensor2;
  d_scaling : tensor2;
  d_opacity : tensor2;
  d_color : tensor2
}.

(** The deformation model object handed to [reconstruction]. *)
Record DeformModel := {
  name : string;
  d_rot_as_res : bool;
  step : tensor2 -> tensor2 -> tensor2 -> tensor2 -> d_values;
  expand_time : tensor1 -> tensor2
}.

(** The dictionary returned by [gaussian_renderer.render]. *)
Record render_pkg := {
  pkg_render : tensor3;
  pkg_alpha : tensor3;
  pkg_rend_normal : tensor3;
  pkg_depth : tensor3;
  pkg_surf_normal : tensor3
}.

Record PinholeCameraIntrinsic := {
  width : Z;
  height : Z;
  cx : Q;
  cy : Q;
  fx : Q;
  fy : Q
}.

Record PinholeCameraParameters := {
  extrinsic : tensor2;
  intrinsic : PinholeCameraIntrinsic
}.

Inductive TSDFVolumeColorType := RGB8 | Gray32 | NoColor.

Record RGBDImage := {
  rgbd_color : image8;
  rgbd_depth : tensor3;
  rgbd_depth_trunc : Q;
  convert_rgb_to_intensity : bool;
  depth_scale : Q
}.

(** A [ScalableTSDFVolume] is known by its construction parameters and by
    the frames integrated into it, oldest first. *)
Record ScalableTSDFVolume := {
  voxel_length : Q;
  sdf_trunc : Q;
  color_type : TSDFVolumeColorType;
  integrated : list (RGBDImage * PinholeCameraIntrinsic * tensor2)
}.

Definition integrate (rgbd : RGBDImage) (intr : PinholeCameraIntrinsic)
    (extr : tensor2) (v : ScalableTSDFVolume) : ScalableTSDFVolume :=
  {| voxel_length := voxel_length v; sdf_trunc := sdf_trunc v;
     color_type := color_type v;
     integrated := integrated v ++ [(rgbd, intr, extr)] |}.

Record TriangleMesh := {
  vertices : list (Q * Q * Q);
  triangles : list (Z * Z * Z);
  vertex_colors : list (Q * Q * Q)
}.

(** ** The extractor object *)

(** A buffer attribute holds a Python list of per-view tensors while views
    are accumulated, and one tensor stacked along dimension 0 afterwards.
    Either way the views are kept in order. *)
Inductive buffer :=
| PyList (views : list tensor3)
| Stacked (views : list tensor3).

Definition views (b : buffer) : list tensor3 :=
  match b with
  | PyList l => l
  | Stacked l => l
  end.

Definition set_view (i : nat) (t : tensor3) (b : buffer) : buffer :=
  match b with
  | PyList l => PyList (<[i := t]> l)
  | Stacked l => Stacked (<[i := t]> l)
  end.

Record GaussianExtractor := {
  gaussians : GaussianModel;
  depthmaps : buffer;
  alphamaps : buffer;
  rgbmaps : buffer;
  normals : buffer;
  depth_normals : buffer;
  points : buffer;
  viewpoint_stack : list Camera
}.

(** The method names bound in the body of [class GaussianExtractor]. *)
Definition GaussianExtractor_methods : list string :=
  ["__init__"; "clean"; "reconstruction"; "extract_mesh_bounded"; "export_image"].

(** The attributes [__init__] and [clean] set on the instance. *)
Definition GaussianExtractor_attributes : list string :=
  ["gaussians"; "render"; "depthmaps"; "alphamaps"; "rgbmaps"; "normals";
   "depth_normals"; "points"; "viewpoint_stack"].

(** ** The world *)

Inductive ndarray :=
| Arr2 (t : tensor2)
| Arr3 (t : tensor3).

Inductive writer := save_img_u8 | save_img_f32 | cv2_imwrite.

Inductive file :=
| Written (by_ : writer) (data : ndarray)
| Blob (content : string).

Inductive pyval :=
| VInt (z : Z)
| VFloat (q : Q)
| VStr (s : string)
| VBool (b : bool)
| VShape (l : list nat)
| VMesh (l : positive).

(** The coercions an argument undergoes where it is used. *)
Definition as_float (v : pyval) : result Q :=
  match v with
  | VFloat q => Ok q
  | VInt z => Ok (inject_Z z)
  | VBool b => Ok (if b then 1%Q else 0%Q)
  | _ => Raise (TypeError "a real number is required")
  end.

Definition as_int (v : pyval) : result Z :=
  match v with
  | VInt z => Ok z
  | VBool b => Ok (if b then 1%Z else 0%Z)
  | _ => Raise (TypeError "an integer is required")
  end.

Definition truth (v : pyval) : bool :=
  match v with
  | VInt z => negb (z =? 0)%Z
  | VFloat q => negb (Qeq_bool q 0)
  | VStr s => negb (String.eqb s "")
  | VBool b => b
  | VShape l => negb (bool_decide (l = []))
  | VMesh _ => true
  end.

Definition as_mesh (v : pyval) : result positive :=
  match v with
  | VMesh l => Ok l
  | _ => Raise (AttributeError "object has no attribute 'cluster_connected_triangles'")
  end.

Inductive event :=
| EvPrint (fmt : string) (args : list pyval)
| EvRender (cam : Camera)
| EvCreateVideos (base_dir input_dir out_name : string) (num_frames : nat)
| EvGetWriter (uri : string) (fps : Z)
| EvAppendData (image : ndarray)
| EvCloseWriter.

Record World := {
  self : GaussianExtractor;
  heap : gmap positive TriangleMesh;
  fs : gmap string file;
  dirs : gset string;
  trace : list event
}.

Definition set_self (x : GaussianExtractor) (w : World) : World :=
  {| self := x; heap := heap w; fs := fs w; dirs := dirs w; trace := trace w |}.
Definition set_heap (h : gmap positive TriangleMesh) (w : World) : World :=
  {| self := self w; heap := h; fs := fs w; dirs := dirs w; trace := trace w |}.
Definition set_fs (f : gmap string file) (w : World) : World :=
  {| self := self w; heap := heap w; fs := f; dirs := dirs w; trace := trace w |}.
Definition set_dirs (d : gset string) (w : World) : World :=
  {| self := self w; heap := heap w; fs := fs w; dirs := d; trace := trace w |}.
Definition set_trace (t : list event) (w : World) : World :=
  {| self := self w; heap := heap w; fs := fs w; dirs := dirs w; trace := t |}.

(** Computations that read and update the world and may raise. *)
Definition M (A : Type) : Type := World -> result A * World.

Definition ret {A} (a : A) : M A := fun w => (Ok a, w).
Definition raise {A} (e : exn) : M A := fun w => (Raise e, w).
Definition bind {A B} (c : M A) (k : A -> M B) : M B :=
  fun w => match c w with
           | (Ok a, w') => k a w'
           | (Raise e, w') => (Raise e, w')
           end.
Definition lift {A} (r : result A) : M A :=
  fun w => (r, w).
Definition get_self : M GaussianExtractor := fun w => (Ok (self w), w).
Definition modify_self (f : GaussianExtractor -> GaussianExtractor) : M unit :=
  fun w => (Ok tt, set_self (f (self w)) w).
Definition emit (e : event) : M unit :=
  fun w => (Ok tt, set_trace (trace w ++ [e]) w).
Definition print (fmt : string) (args : list pyval) : M unit :=
  emit (EvPrint fmt args).

Notation "'let*' x ':=' c 'in' k" := (bind c (fun x => k))
  (at level 10, x pattern, c at level 100, k at level 200).
Notation "c ';;' k" := (bind c (fun _ => k))
  (at level 100, k at level 200, right associativity).

(** [for x in l: body x] *)
Fixpoint for_each {A} (l : list A) (body : A -> M unit) : M unit :=
  match l with
  | [] => ret tt
  | x :: tl => body x ;; for_each tl body
  end.

(** ** Calling a Python function *)

(** A parameter list of positional-or-keyword parameters, each with its
    default value if it has one. *)
Definition signature := list (string * option pyval).

Fixpoint bind_positional (params : signature) (pos : list pyval)
    : option (list (string * pyval) * signature) :=
  match pos, params with
  | [], _ => Some ([], params)
  | _ :: _, [] => None
  | v :: pos', (p, _) :: params' =>
      match bind_positional params' pos' with
      | Some (bound, rest) => Some ((p, v) :: bound, rest)
      | None => None
      end
  end.

Definition assoc {A} (k : string) (l : list (string * A)) : option A :=
  snd <$> List.find (fun kv => String.eqb (fst kv) k) l.

Fixpoint bind_keywords (fname : string) (params : signature)
    (bound : list (string * pyval)) (kw : list (string * pyval))
    : result (list (string * pyval)) :=
  match kw with
  | [] => Ok bound
  | (k, v) :: kw' =>
      match assoc k params, assoc k bound with
      | None, _ =>
          Raise (TypeError (fname ++ "() got an unexpected keyword argument '" ++ k ++ "'"))
      | Some _, Some _ =>
          Raise (TypeError (fname ++ "() got multiple values for argument '" ++ k ++ "'"))
      | Some _, None => bind_keywords fname params (bound ++ [(k, v)]) kw'
      end
  end.

Fixpoint bind_defaults (fname : string) (params : signature)
    (bound : list (string * pyval)) : result (list (string * pyval)) :=
  match params with
  | [] => Ok bound
  | (p, dflt) :: params' =>
      match assoc p bound, dflt with
      | Some _, _ => bind_defaults fname params' bound
      | None, Some d => bind_defaults fname params' (bound ++ [(p, d)])
      | None, None =>
          Raise (TypeError (fname ++ "() missing 1 required positional argument: '" ++ p ++ "'"))
      end
  end.

(** The binding of the positional and keyword arguments of a call to the
    parameters of the function called. *)
Definition bind_arguments (fname : string) (params : signature)
    (pos : list pyval) (kw : list (string * pyval))
    : result (list (string * pyval)) :=
  match bind_positional params pos with
  | None =>
      let required := length (filter (fun p => snd p = None) params) in
      let takes := if bool_decide (required = length params)
                   then str (length params)
                   else ("from " ++ str required ++ " to " ++ str (length params))%string in
      Raise (TypeError (fname ++ "() takes " ++ takes
                        ++ " positional arguments but " ++ str (length pos)
                        ++ " were given"))
  | Some (bound, _) =>
      rbind (bind_keywords fname params bound kw) (bind_defaults fname params)
  end.

(** [obj.name] for an instance of a class with the given methods and
    instance attributes. *)
Definition has_attribute (methods attributes : list string) (name : string) : bool :=
  existsb (String.eqb name) methods || existsb (String.eqb name) attributes.

(** [def post_process_mesh(mesh, num_triangles_to_keep=100)] *)
Definition post_process_mesh_signature : signature :=
  [("mesh", None); ("num_triangles_to_keep", Some (VInt 100))].

(** ** Indexing *)

(** [l[i]] for an index produced by [enumerate] or [range]. *)
Definition index {A} (l : list A) (i : nat) : result A :=
  match l !! i with
  | Some x => Ok x
  | None => Raise (IndexError "index out of range")
  end.

(** [a[i]] for a NumPy array and an integer of any sign. *)
Definition np_index {A} (a : list A) (i : Z) : result A :=
  let n := Z.of_nat (length a) in
  let j := if (i <? 0)%Z then (i + n)%Z else i in
  if (0 <=? j)%Z && (j <? n)%Z then index a (Z.to_nat j)
  else Raise (IndexError "index is out of bounds").

(** [np.max(a)] of a matrix. *)
Definition Qmax_bool (a b : Q) : Q := if Qle_bool a b then b else a.

Definition np_max (a : tensor2) : result Q :=
  match concat a with
  | [] => Raise (ValueError "zero-size array to reduction operation maximum which has no identity")
  | x :: tl => Ok (fold_left Qmax_bool tl x)
  end.

(** ** Updates of the extractor *)

Definition set_gaussians (g : GaussianModel) (s : GaussianExtractor) : GaussianExtractor :=
  {| gaussians := g; depthmaps := depthmaps s; alphamaps := alphamaps s;
     rgbmaps := rgbmaps s; normals := normals s; depth_normals := depth_normals s;
     points := points s; viewpoint_stack := viewpoint_stack s |}.
Definition set_depthmaps (b : buffer) (s : GaussianExtractor) : GaussianExtractor :=
  {| gaussians := gaussians s; depthmaps := b; alphamaps := alphamaps s;
     rgbmaps := rgbmaps s; normals := normals s; depth_normals := depth_normals s;
     points := points s; viewpoint_stack := viewpoint_stack s |}.
Definition set_alphamaps (b : buffer) (s : GaussianExtractor) : GaussianExtractor :=
  {| gaussians := gaussians s; depthmaps := depthmaps s; alphamaps := b;
     rgbmaps := rgbmaps s; normals := normals s; depth_normals := depth_normals s;
     points := points s; viewpoint_stack := viewpoint_stack s |}.
Definition set_rgbmaps (b : buffer) (s : GaussianExtractor) : GaussianExtractor :=
  {| gaussians := gaussians s; depthmaps := depthmaps s; alphamaps := alphamaps s;
     rgbmaps := b; normals := normals s; depth_normals := depth_normals s;
     points := points s; viewpoint_stack := viewpoint_stack s |}.
Definition set_normals (b : buffer) (s : GaussianExtractor) : GaussianExtractor :=
  {| gaussians := gaussians s; depthmaps := depthmaps s; alphamaps := alphamaps s;
     rgbmaps := rgbmaps s; normals := b; depth_normals := depth_normals s;
     points := points s; viewpoint_stack := viewpoint_stack s |}.
Definition set_depth_normals (b : buffer) (s : GaussianExtractor) : GaussianExtractor :=
  {| gaussians := gaussians s; depthmaps := depthmaps s; alphamaps := alphamaps s;
     rgbmaps := rgbmaps s; normals := normals s; depth_normals := b;
     points := points s; viewpoint_stack := viewpoint_stack s |}.
Definition set_viewpoint_stack (v : list Camera) (s : GaussianExtractor) : GaussianExtractor :=
  {| gaussians := gaussians s; depthmaps := depthmaps s; alphamaps := alphamaps s;
     rgbmaps := rgbmaps s; normals := normals s; depth_normals := depth_normals s;
     points := points s; viewpoint_stack := v |}.

(** [self.attr.append(t)]: only a list has [append]. *)
Definition append (t : tensor3) (b : buffer) : result buffer :=
  match b with
  | PyList l => Ok (PyList (l ++ [t]))
  | Stacked _ => Raise (AttributeError "'Tensor' object has no attribute 'append'")
  end.

Definition append_to (get : GaussianExtractor -> buffer)
    (set : buffer -> GaussianExtractor -> GaussianExtractor) (t : tensor3) : M unit :=
  let* s := get_self in
  let* b := lift (append t (get s)) in
  modify_self (set b).

(** [self.attr = torch.stack(self.attr, dim=0)] *)
Definition stack_attr (get : GaussianExtractor -> buffer)
    (set : buffer -> GaussianExtractor -> GaussianExtractor) : M unit :=
  let* s := get_self in
  let* l := lift (stack (views (get s))) in
  modify_self (set (Stacked l)).

(** ** The file system *)

Definition write_file (path : string) (f : file) : M unit :=
  fun w => (Ok tt, set_fs (<[path := f]> (fs w)) w).

(** [os.makedirs(path, exist_ok=True)] and [os.mkdir(path)] on a path that
    does not exist. *)
Definition makedirs (path : string) : M unit :=
  fun w => (Ok tt, set_dirs ({[path]} ∪ dirs w) w).

(** [os.path.exists(path)] *)
Definition path_exists (path : string) : M bool :=
  fun w => (Ok (bool_decide (path ∈ dirs w) || bool_decide (is_Some (fs w !! path))), w).

(** ["{0:05d}".format(idx)] *)
Definition fmt05 (idx : nat) : string := zfill 5 (str idx).

(** ** Division and mask removal *)

(** Python's [a / b] on floats. *)
Definition py_div (a b : Q) : result Q :=
  if Qeq_bool b 0 then Raise ZeroDivisionError else Ok (a / b)%Q.

(** Open3D's [TriangleMesh.remove_triangles_by_mask]: the mask has one entry
    per triangle and the triangles marked [True] are dropped. *)
Definition remove_triangles_by_mask (mask : list bool) (m : TriangleMesh)
    : result TriangleMesh :=
  if decide (length mask = length (triangles m)) then
    Ok {| vertices := vertices m;
          triangles := fst <$> filter (fun tb => snd tb = false) (zip (triangles m) mask);
          vertex_colors := vertex_colors m |}
  else Raise (RuntimeError "triangle_mask has a different size than triangles").

(** ** The script's arguments and scene *)

(** The namespace returned by [get_combined_args]. *)
Record Args := {
  model_path : string;
  source_path : string;
  iteration : Z;
  skip_train : bool;
  skip_test : bool;
  skip_mesh : bool;
  quiet : bool;
  render_path : bool;
  voxel_size : Q;
  depth_trunc : Q;
  num_cluster : Z;
  unbounded : bool;
  mesh_res : Z;
  white_background2 : bool;
  config : option string
}.

(** [args.depth_trunc = v] *)
Definition set_depth_trunc (v : Q) (a : Args) : Args :=
  {| model_path := model_path a; source_path := source_path a;
     iteration := iteration a; skip_train := skip_train a;
     skip_test := skip_test a; skip_mesh := skip_mesh a; quiet := quiet a;
     render_path := render_path a; voxel_size := voxel_size a;
     depth_trunc := v; num_cluster := num_cluster a;
     unbounded := unbounded a; mesh_res := mesh_res a;
     white_background2 := white_background2 a; config := config a |}.

Record Scene := {
  getTrainCameras : list Camera;
  getTestCameras : list Camera;
  getTrainCameras_mesh : Q -> list Camera;
  loaded_iter : nat
}.

(** ** What the repository imports

    The functions of other packages (PyTorch, NumPy, Open3D, imageio, the
    renderer and the scene of the surrounding project) that the two files
    call, and the types they are stated over. *)

Class Externals := {
  (** [math.tan] *)
  tan : Q -> Q;
  (** [torch.nn.functional.normalize(_, dim=0)] *)
  normalize : tensor3 -> tensor3;
  (** [gaussian_renderer.render] and the type of its pipeline argument *)
  Pipeline : Type;
  render :
    Camera -> GaussianModel -> Pipeline -> tensor1 -> d_values -> bool -> bool
    -> render_pkg;
  (** Open3D: [ScalableTSDFVolume.extract_triangle_mesh] and the clean-up
      methods of [TriangleMesh] *)
  extract_triangle_mesh : ScalableTSDFVolume -> TriangleMesh;
  cluster_connected_triangles : TriangleMesh -> list Z * list Z * list Q;
  remove_unreferenced_vertices : TriangleMesh -> TriangleMesh;
  remove_degenerate_triangles : TriangleMesh -> TriangleMesh;
  (** the parameter group [model.extract(args)] returns and the fields the
      script reads from it *)
  Dataset : Type;
  model_extract : Args -> Dataset;
  sh_degree : Dataset -> Z;
  skinning : Dataset -> bool;
  hyper_dim : Dataset -> Z;
  gs_with_motion_mask : Dataset -> bool;
  white_background : Dataset -> bool;
  (** the objects and functions the script imports *)
  model_white_background : bool;
  pipeline : Pipeline;
  load_deform : Dataset -> Z -> DeformModel;
  node_num : DeformModel -> Z;
  new_GaussianModel : Z -> Z -> bool -> GaussianModel;
  load_scene : Dataset -> GaussianModel -> Z -> Scene * GaussianModel;
  generate_path : list Camera -> nat -> list Camera;
  pose_spherical : Q -> Q -> Q -> tensor2;
  np_linalg_inv : tensor2 -> tensor2;
  camera_cpu : Camera -> Camera;
  render_mesh :
    Camera -> list (Q * Q * Q) -> list (Z * Z * Z) -> list (Q * Q * Q) -> bool
    -> tensor3;
  mesh_shape_renderer :
    list (Q * Q * Q) -> list (Z * Z * Z) -> Camera -> tensor3;
  imageio_imread : file -> result ndarray
}.

Section Program.

Context {ext : Externals}.

(** ** utils/mesh_utils.py *)

(** *** Meshes on the heap *)

Definition alloc_mesh (m : TriangleMesh) : M positive :=
  fun w => let l := fresh (dom (heap w)) in (Ok l, set_heap (<[l := m]> (heap w)) w).

Definition read_mesh (l : positive) : M TriangleMesh :=
  fun w => match heap w !! l with
           | Some m => (Ok m, w)
           | None => (Raise (RuntimeError "no such object"), w)
           end.

Definition write_mesh (l : positive) (m : TriangleMesh) : M unit :=
  fun w => (Ok tt, set_heap (<[l := m]> (heap w)) w).

(** [copy.deepcopy(mesh)] *)
Definition deepcopy (l : positive) : M positive :=
  let* m := read_mesh l in alloc_mesh m.

(** *** post_process_mesh *)

Definition post_process_mesh (mesh : positive) (num_triangles_to_keep : Z) : M positive :=
  print "Removing all the objects with the number of triangles smaller than {}"
        [VInt num_triangles_to_keep] ;;
  let* mesh_0 := deepcopy mesh in
  let* m0 := read_mesh mesh_0 in
  let '(triangle_clusters, cluster_n_triangles, cluster_area) :=
    cluster_connected_triangles m0 in
  let* triangles_to_remove :=
    lift (rmapM (fun c => rbind (np_index cluster_n_triangles c)
                            (fun n => Ok (n <? num_triangles_to_keep)%Z))
                triangle_clusters) in
  let* m1 := lift (remove_triangles_by_mask triangles_to_remove m0) in
  write_mesh mesh_0 m1 ;;
  write_mesh mesh_0 (remove_unreferenced_vertices m1) ;;
  write_mesh mesh_0 (remove_degenerate_triangles (remove_unreferenced_vertices m1)) ;;
  let* raw := read_mesh mesh in
  print "num vertices raw {}" [VInt (Z.of_nat (length (vertices raw)))] ;;
  let* post := read_mesh mesh_0 in
  print "num vertices post {}" [VInt (Z.of_nat (length (vertices post)))] ;;
  ret mesh_0.

(** *** to_cam_open3d *)

Definition cam_open3d (viewpoint_cam : Camera) : result PinholeCameraParameters :=
  let W := inject_Z (image_width viewpoint_cam) in
  let H := inject_Z (image_height viewpoint_cam) in
  rbind (py_div W (2 * tan (FoVx viewpoint_cam / 2))%Q) (fun fx_ =>
  rbind (py_div H (2 * tan (FoVy viewpoint_cam / 2))%Q) (fun fy_ =>
  Ok {| extrinsic := transpose (world_view_transform viewpoint_cam);
        intrinsic := {| width := image_width viewpoint_cam;
                        height := image_height viewpoint_cam;
                        cx := (W / 2)%Q; cy := (H / 2)%Q;
                        fx := fx_; fy := fy_ |} |})).

Definition to_cam_open3d (viewpoint_stack : list Camera)
    : result (list PinholeCameraParameters) :=
  rmapM cam_open3d viewpoint_stack.

(** *** GaussianExtractor *)

Definition clean : M unit :=
  modify_self (fun s =>
    {| gaussians := gaussians s; depthmaps := PyList []; alphamaps := PyList [];
       rgbmaps := PyList []; normals := PyList []; depth_normals := PyList [];
       points := PyList []; viewpoint_stack := [] |}).

(** [GaussianExtractor(gaussians, render, pipe, bg_color)] *)
Definition new_GaussianExtractor (g : GaussianModel) : GaussianExtractor :=
  {| gaussians := g; depthmaps := PyList []; alphamaps := PyList [];
     rgbmaps := PyList []; normals := PyList []; depth_normals := PyList [];
     points := PyList []; viewpoint_stack := [] |}.

(** The time input of the deformation network for one camera.  A name of
    the deformation model other than ["mlp"] and ["node"] leaves the local
    variable unbound. *)
Definition deform_time_input (deform : DeformModel) (fid_ : tensor1)
    (xyz : tensor2) (var : string) : result tensor2 :=
  if String.eqb (name deform) "mlp" then Ok (repeat fid_ (length xyz))
  else if String.eqb (name deform) "node" then Ok (expand_time deform fid_)
  else Raise (UnboundLocalError var).

Definition time_input_of (state : string) (deform : DeformModel)
    (viewpoint_cam : Camera) (xyz : tensor2) : result tensor2 :=
  if String.eqb state "mesh" then
    rbind (deform_time_input deform (fid viewpoint_cam) xyz "time_input2")
          (fun time_input2 => Ok (repeat [time viewpoint_cam] (length time_input2)))
  else deform_time_input deform (fid viewpoint_cam) xyz "time_input".

Definition call_render (cam : Camera) (g : GaussianModel) (pipeline : Pipeline)
    (background : tensor1) (d : d_values) (rot_as_res depth_filtering : bool)
    : M render_pkg :=
  emit (EvRender cam) ;;
  ret (render cam g pipeline background d rot_as_res depth_filtering).

Definition reconstruct_view (pipeline : Pipeline) (background : tensor1)
    (deform : DeformModel) (state : string) (depth_filtering : bool)
    (viewpoint_cam : Camera) : M unit :=
  let* s := get_self in
  let xyz := get_xyz (gaussians s) in
  let* time_input := lift (time_input_of state deform viewpoint_cam xyz) in
  let d := step deform xyz time_input (feature (gaussians s))
                (motion_mask (gaussians s)) in
  let* results := call_render viewpoint_cam (gaussians s) pipeline background d
                              (d_rot_as_res deform) depth_filtering in
  let alpha := pkg_alpha results in
  let* catted := lift (cat (pkg_render results) alpha) in
  let rendering := clamp 0 1 catted in
  let rgb := take 3 rendering in
  let normal := normalize (pkg_rend_normal results) in
  let depth := pkg_depth results in
  let depth_normal := pkg_surf_normal results in
  append_to rgbmaps set_rgbmaps rgb ;;
  append_to depthmaps set_depthmaps depth ;;
  append_to alphamaps set_alphamaps alpha ;;
  append_to normals set_normals normal ;;
  append_to depth_normals set_depth_normals depth_normal.

Definition reconstruction (viewpoint_stack_ : list Camera) (pipeline : Pipeline)
    (background : tensor1) (deform : DeformModel) (state : string)
    (depth_filtering : bool) : M unit :=
  clean ;;
  modify_self (set_viewpoint_stack viewpoint_stack_) ;;
  let* s := get_self in
  for_each (viewpoint_stack s)
           (reconstruct_view pipeline background deform state depth_filtering) ;;
  stack_attr rgbmaps set_rgbmaps ;;
  stack_attr depthmaps set_depthmaps ;;
  stack_attr alphamaps set_alphamaps ;;
  stack_attr depth_normals set_depth_normals.

(** One round of the loop of [extract_mesh_bounded]. *)
Definition integrate_view (mask_backgrond : bool) (depth_trunc : Q) (i : nat)
    (cam_o3d : PinholeCameraParameters) (volume : ScalableTSDFVolume)
    : M ScalableTSDFVolume :=
  let* s := get_self in
  let* rgb := lift (index (views (rgbmaps s)) i) in
  let* depth := lift (index (views (depthmaps s)) i) in
  let* depth :=
    (if mask_backgrond then
       let* cam := lift (index (viewpoint_stack s) i) in
       match gt_alpha_mask cam with
       | Some mask =>
           let* masked := lift (mask_below_half depth mask) in
           modify_self (set_depthmaps (set_view i masked (depthmaps s))) ;;
           ret masked
       | None => ret depth
       end
     else ret depth) in
  let rgbd := {| rgbd_color := rgb_to_uint8 rgb;
                 rgbd_depth := permute_1_2_0 depth;
                 rgbd_depth_trunc := depth_trunc;
                 convert_rgb_to_intensity := false;
                 depth_scale := 1 |} in
  ret (integrate rgbd (intrinsic cam_o3d) (extrinsic cam_o3d) volume).

Fixpoint integrate_views (mask_backgrond : bool) (depth_trunc : Q) (i : nat)
    (cams : list PinholeCameraParameters) (volume : ScalableTSDFVolume)
    : M ScalableTSDFVolume :=
  match cams with
  | [] => ret volume
  | cam_o3d :: rest =>
      let* volume' := integrate_view mask_backgrond depth_trunc i cam_o3d volume in
      integrate_views mask_backgrond depth_trunc (S i) rest volume'
  end.

Definition extract_mesh_bounded (voxel_size sdf_trunc_ depth_trunc : Q)
    (mask_backgrond : bool) : M positive :=
  print "Running tsdf volume integration ..." [] ;;
  print "voxel_size: {}" [VFloat voxel_size] ;;
  print "sdf_trunc: {}" [VFloat sdf_trunc_] ;;
  print "depth_truc: {}" [VFloat depth_trunc] ;;
  let volume := {| voxel_length := voxel_size; sdf_trunc := sdf_trunc_;
                   color_type := RGB8; integrated := [] |} in
  let* s := get_self in
  let* cams := lift (to_cam_open3d (viewpoint_stack s)) in
  let* volume' := integrate_views mask_backgrond depth_trunc 0 cams volume in
  alloc_mesh (extract_triangle_mesh volume').

(** One round of the loop of [export_image]. *)
Definition export_view (render_path gts_path vis_path : string) (idx : nat)
    (viewpoint_cam : Camera) : M unit :=
  let* s := get_self in
  let gt := take 3 (original_image viewpoint_cam) in
  write_file (path_join gts_path (fmt05 idx ++ ".png"))
             (Written save_img_u8 (Arr3 (permute_1_2_0 gt))) ;;
  let* rgb := lift (index (views (rgbmaps s)) idx) in
  write_file (path_join render_path (fmt05 idx ++ ".png"))
             (Written save_img_u8 (Arr3 (permute_1_2_0 rgb))) ;;
  let* depth := lift (index (views (depthmaps s)) idx) in
  let* depth0 := lift (index depth 0) in
  write_file (path_join vis_path ("depth_" ++ fmt05 idx ++ ".tiff"))
             (Written save_img_f32 (Arr2 depth0)) ;;
  let* max_depth := lift (np_max depth0) in
  write_file (path_join vis_path ("depth_" ++ fmt05 idx ++ ".png"))
             (Written cv2_imwrite
                (Arr2 (map (map (fun v => v / max_depth * 255)%Q) depth0))) ;;
  let* normal := lift (index (views (normals s)) idx) in
  write_file (path_join vis_path ("normal_" ++ fmt05 idx ++ ".png"))
             (Written save_img_u8
                (Arr3 (map (map (map (fun v => v * (1 # 2) + (1 # 2))%Q))
                           (permute_1_2_0 normal)))) ;;
  let* depth_normal := lift (index (views (depth_normals s)) idx) in
  write_file (path_join vis_path ("depth_normal_" ++ fmt05 idx ++ ".png"))
             (Written save_img_u8
                (Arr3 (map (map (map (fun v => v * (1 # 2) + (1 # 2))%Q))
                           (permute_1_2_0 depth_normal)))).

Fixpoint export_views (render_path gts_path vis_path : string) (idx : nat)
    (cams : list Camera) : M unit :=
  match cams with
  | [] => ret tt
  | viewpoint_cam :: rest =>
      export_view render_path gts_path vis_path idx viewpoint_cam ;;
      export_views render_path gts_path vis_path (S idx) rest
  end.

Definition export_image (path : string) : M unit :=
  let render_path := path_join path "renders" in
  let gts_path := path_join path "gt" in
  let vis_path := path_join path "vis" in
  makedirs render_path ;;
  makedirs vis_path ;;
  makedirs gts_path ;;
  let* s := get_self in
  export_views render_path gts_path vis_path 0 (viewpoint_stack s).


(** ** render_mesh_trajectory.py *)

(** *** Calls of the mesh functions *)

(** [def extract_mesh_bounded(self, voxel_size=0.004, sdf_trunc=0.02,
    depth_trunc=3, mask_backgrond=True)] *)
Definition extract_mesh_bounded_signature : signature :=
  [("voxel_size", Some (VFloat (4 # 1000)));
   ("sdf_trunc", Some (VFloat (2 # 100)));
   ("depth_trunc", Some (VInt 3));
   ("mask_backgrond", Some (VBool true))].

Definition argument (bound : list (string * pyval)) (p : string) : result pyval :=
  match assoc p bound with
  | Some v => Ok v
  | None => Raise (UnboundLocalError p)
  end.

Definition call_extract_mesh_bounded (pos : list pyval) (kw : list (string * pyval))
    : M positive :=
  let* bound := lift (bind_arguments "extract_mesh_bounded"
                                     extract_mesh_bounded_signature pos kw) in
  let* voxel := lift (rbind (argument bound "voxel_size") as_float) in
  let* sdf := lift (rbind (argument bound "sdf_trunc") as_float) in
  let* dtrunc := lift (rbind (argument bound "depth_trunc") as_float) in
  let* mask := lift (argument bound "mask_backgrond") in
  extract_mesh_bounded voxel sdf dtrunc (truth mask).

Definition call_post_process_mesh (pos : list pyval) (kw : list (string * pyval))
    : M positive :=
  let* bound := lift (bind_arguments "post_process_mesh"
                                     post_process_mesh_signature pos kw) in
  let* mesh := lift (rbind (argument bound "mesh") as_mesh) in
  let* n := lift (rbind (argument bound "num_triangles_to_keep") as_int) in
  post_process_mesh mesh n.

(** A call of a method of [gaussExtractor] with keyword arguments, where
    the script expects a mesh back: the name is looked up on the instance
    and its class first. *)
Definition call_mesh_method (method_name : string) (kw : list (string * pyval))
    : M positive :=
  if negb (has_attribute GaussianExtractor_methods GaussianExtractor_attributes
                         method_name) then
    raise (AttributeError ("'GaussianExtractor' object has no attribute '"
                           ++ method_name ++ "'"))
  else if String.eqb method_name "extract_mesh_bounded" then
    call_extract_mesh_bounded [] kw
  else raise (TypeError (method_name ++ "() does not return a mesh")).

(** *** The file system as the script sees it *)

Fixpoint strip_prefix (p s : string) : option string :=
  match p, s with
  | "", _ => Some s
  | String a p', String b s' => if Ascii.eqb a b then strip_prefix p' s' else None
  | _, _ => None
  end.

Fixpoint has_slash (s : string) : bool :=
  match s with
  | "" => false
  | String c tl => Ascii.eqb c "/" || has_slash tl
  end.

Definition entry_of (d p : string) : option string :=
  match strip_prefix (d ++ "/") p with
  | Some n => if String.eqb n "" || has_slash n then None else Some n
  | None => None
  end.

(** [os.listdir(d)] *)
Definition listdir (d : string) (w : World) : list string :=
  omap (entry_of d) (elements (dom (fs w) ∪ dirs w)).

(** [if not os.path.exists(p): os.mkdir(p)] *)
Definition ensure_dir (p : string) : M unit :=
  let* e := path_exists p in
  if e then ret tt else makedirs p.

(** [open(path, "r")] *)
Definition open_read (path : string) : M file :=
  fun w => match fs w !! path with
           | Some f => (Ok f, w)
           | None => (Raise (FileNotFoundError path), w)
           end.

(** [imageio.imread(path)] *)
Definition imread (path : string) : M ndarray :=
  let* f := open_read path in lift (imageio_imread f).

(** *** The camera of the mesh renderer *)

Definition neg_row (r : list Q) : list Q := map Qopp r.

(** [R[:, 0] = -R[:, 0]] *)
Definition negate_first_column (m : tensor2) : tensor2 :=
  map (fun r => match r with
                | [] => []
                | x :: tl => Qopp x :: tl
                end) m.

Definition set_R_T (r : tensor2) (t : tensor1) (c : Camera) : Camera :=
  {| image_width := image_width c; image_height := image_height c;
     FoVx := FoVx c; FoVy := FoVy c;
     world_view_transform := world_view_transform c;
     gt_alpha_mask := gt_alpha_mask c; original_image := original_image c;
     fid := fid c; time := time c; R := r; T := t |}.

Definition pose_camera (cam0 : Camera) (pose : tensor2) : result Camera :=
  let matrix := np_linalg_inv pose in
  let R_ := negate_first_column
              (map neg_row (transpose (map (take 3) (take 3 matrix)))) in
  rbind (rmapM (fun row => index row 3) (take 3 matrix)) (fun col =>
  Ok (camera_cpu (set_R_T R_ (neg_row col) cam0))).

(** [np.linspace(start, stop, num)] *)
Definition np_linspace (start stop : Q) (num : nat) : list Q :=
  map (fun k => start + (stop - start) * inject_Z (Z.of_nat k)
                        / inject_Z (Z.of_nat (num - 1)))%Q
      (seq 0 num).

Definition frame : nat := 100.

Definition render_poses : list tensor2 :=
  map (fun angle => pose_spherical angle (-15) 4)
      (removelast (np_linspace (-180) 180 (frame + 1))).

Definition scale255 (t : tensor3) : tensor3 :=
  map (map (map (fun v => v * 255)%Q)) t.

(** *** The loop that exports the meshes *)

Definition depth_filtering : bool := true.

(** The first half of a round: the views of the frame are rendered and
    fused into a mesh. *)
Definition frame_mesh (args : Args) (scene : Scene) (background : tensor1)
    (deform : DeformModel) (train_dir : string) (i : nat) : M positive :=
  let mesh_time := (inject_Z (Z.of_nat i)
                    / inject_Z (Z.of_nat (length render_poses)))%Q in
  print "export mesh ..." [] ;;
  makedirs train_dir ;;
  modify_self (fun s => set_gaussians (set_active_sh_degree 0 (gaussians s)) s) ;;
  reconstruction (getTrainCameras_mesh scene mesh_time) pipeline background
                 deform "mesh" depth_filtering ;;
  if unbounded args then
    call_mesh_method "extract_mesh_unbounded"
                     [("resolution", VInt (mesh_res args))]
  else
    call_mesh_method "extract_mesh_bounded"
                     [("voxel_size", VFloat (voxel_size args));
                      ("sdf_trunc", VFloat (5 * voxel_size args));
                      ("depth_trunc", VFloat (depth_trunc args))].

(** The second half: the mesh is cleaned up and rendered to two images. *)
Definition frame_images (args : Args) (scene : Scene)
    (train_dir images_save_path meshshape_save_path : string)
    (i : nat) (mesh : positive) : M unit :=
  let name_ := ("frame_" ++ str i ++ ".ply")%string in
  let* mesh_post_ := call_post_process_mesh
                       [VMesh mesh] [("cluster_to_keep", VInt (num_cluster args))] in
  print "mesh post processed saved at {}" [VStr (path_join train_dir name_)] ;;
  let* mesh_post := read_mesh mesh_post_ in
  let verts := vertices mesh_post in
  let faces := triangles mesh_post in
  let vertex_colors_ := vertex_colors mesh_post in
  let* cam0 := lift (index (getTestCameras scene) 0) in
  let* pose := lift (index render_poses i) in
  let* viewpoint_cam := lift (pose_camera cam0 pose) in
  let mesh_img := scale255 (render_mesh viewpoint_cam verts faces vertex_colors_ true) in
  let imagename := zfill 5 (str i) in
  print "save images" [] ;;
  write_file (images_save_path ++ "/" ++ imagename ++ ".png")
             (Written cv2_imwrite (Arr3 mesh_img)) ;;
  let mesh_image_shape_np :=
    scale255 (mesh_shape_renderer verts faces viewpoint_cam) in
  print "save images" [] ;;
  write_file (meshshape_save_path ++ "/" ++ imagename ++ ".png")
             (Written cv2_imwrite (Arr3 mesh_image_shape_np)) ;;
  print "{}" [VShape (shape3 mesh_image_shape_np)].

Definition mesh_frame (args : Args) (scene : Scene) (background : tensor1)
    (deform : DeformModel) (train_dir images_save_path meshshape_save_path : string)
    (i : nat) : M unit :=
  let* mesh := frame_mesh args scene background deform train_dir i in
  frame_images args scene train_dir images_save_path meshshape_save_path i mesh.

(** *** The video *)

Definition video_name : string := "output_video.mp4".
Definition fps : Z := 25.

Fixpoint read_images (meshshape_save_path : string) (ks : list nat)
    : M (list ndarray) :=
  match ks with
  | [] => ret []
  | k :: rest =>
      let* image := imread (meshshape_save_path ++ "/" ++ zfill 5 (str k) ++ ".png") in
      let* images := read_images meshshape_save_path rest in
      ret (image :: images)
  end.

(** [len(os.listdir(d))] *)
Definition count_entries (d : string) : M nat :=
  fun w => (Ok (length (listdir d w)), w).

Definition assemble_video (meshshape_save_path : string) : M unit :=
  let* m := count_entries meshshape_save_path in
  let* images := read_images meshshape_save_path (seq 0 m) in
  emit (EvGetWriter video_name fps) ;;
  for_each images (fun image => emit (EvAppendData image)) ;;
  emit EvCloseWriter.

(** *** The script *)

Definition export_phase (title dir state : string) (cams : list Camera)
    (background : tensor1) (deform : DeformModel) : M unit :=
  print title [] ;;
  makedirs dir ;;
  reconstruction cams pipeline background deform state depth_filtering ;;
  export_image dir.

Definition main (parsed : Args) : M unit :=
  let args := set_depth_trunc 6 parsed in
  print "{}" [VBool model_white_background] ;;
  print ("Rendering " ++ model_path args) [] ;;
  let dataset := model_extract args in
  let deform := load_deform dataset (iteration args) in
  let gs_fea_dim :=
    if skinning dataset && String.eqb (name deform) "node" then node_num deform
    else hyper_dim dataset in
  let gaussians0 :=
    new_GaussianModel (sh_degree dataset) gs_fea_dim (gs_with_motion_mask dataset) in
  let '(scene, gaussians_) := load_scene dataset gaussians0 (iteration args) in
  let background : tensor1 :=
    if white_background dataset then [1; 1; 1]%Q else [0; 0; 0]%Q in
  let ours := ("ours_" ++ str (loaded_iter scene))%string in
  let train_dir := path_join (path_join (model_path args) "train") ours in
  let test_dir := path_join (path_join (model_path args) "test") ours in
  modify_self (fun _ => new_GaussianExtractor gaussians_) ;;
  (if negb (skip_train args) then
     export_phase "export training images ..." train_dir "train"
                  (getTrainCameras scene) background deform
   else ret tt) ;;
  (if negb (skip_test args) && (0 <? length (getTestCameras scene))%nat then
     export_phase "export rendered testing images ..." test_dir "test"
                  (getTestCameras scene) background deform
   else ret tt) ;;
  (if render_path args then
     let traj_dir := path_join (path_join (model_path args) "traj") ours in
     let n_fames := 240%nat in
     export_phase "render videos ..." traj_dir "video"
                  (generate_path (getTrainCameras scene) n_fames) background deform ;;
     emit (EvCreateVideos traj_dir traj_dir "render_traj" n_fames)
   else ret tt) ;;
  open_read (path_join (source_path args) "transforms_test.json") ;;
  let images_save_path := path_join (model_path args) "mesh_image" in
  let meshshape_save_path := path_join (model_path args) "mesh_shape" in
  let meshshape_gt_save_path := path_join (model_path args) "mesh_shape_gt" in
  ensure_dir images_save_path ;;
  ensure_dir meshshape_save_path ;;
  ensure_dir meshshape_gt_save_path ;;
  (if negb (skip_mesh args) then
     for_each (seq 0 (length render_poses))
              (mesh_frame args scene background deform train_dir
                          images_save_path meshshape_save_path)
   else ret tt) ;;
  assemble_video meshshape_save_path.

(** ** What a view contributes *)

(** The colour buffer kept for a rendered package. *)
Definition rgb_of (pkg : render_pkg) : tensor3 :=
  take 3 (clamp 0 1 (pkg_render pkg ++ pkg_alpha pkg)).

(** The package rendered for a camera, when its time input is defined and
    the rendered colour and opacity can be concatenated. *)
Definition rendered (g : GaussianModel) (pipeline_ : Pipeline) (background : tensor1)
    (deform : DeformModel) (state : string) (df : bool) (cam : Camera)
    (pkg : render_pkg) : Prop :=
  exists time_input,
    time_input_of state deform cam (get_xyz g) = Ok time_input /\
    pkg = render cam g pipeline_ background
                 (step deform (get_xyz g) time_input (feature g) (motion_mask g))
                 (d_rot_as_res deform) df /\
    tail (shape3 (pkg_render pkg)) = tail (shape3 (pkg_alpha pkg)).


(** ** What a camera contributes to the volume *)

(** The intrinsics of a camera, in plain arithmetic. *)
Definition pinhole (cam : Camera) : PinholeCameraIntrinsic :=
  let W := inject_Z (image_width cam) in
  let H := inject_Z (image_height cam) in
  {| width := image_width cam; height := image_height cam;
     cx := (W / 2)%Q; cy := (H / 2)%Q;
     fx := (W / (2 * tan (FoVx cam / 2)))%Q;
     fy := (H / (2 * tan (FoVy cam / 2)))%Q |}.







(** ** What the clean-up removes *)

(** A triangle of cluster [c] is marked for removal exactly when its
    cluster has fewer than [threshold] triangles. *)
Definition small_cluster (cluster_n_triangles : list Z) (threshold : Z)
    (c : Z) (remove : bool) : Prop :=
  exists k, np_index cluster_n_triangles c = Ok k /\ remove = (k <? threshold)%Z.

(** The triangles a mask keeps, in order. *)
Definition kept_triangles (m : TriangleMesh) (mask : list bool) : list (Z * Z * Z) :=
  fst <$> filter (fun tb => snd tb = false) (zip (triangles m) mask).

(** ** The frames of the video *)

(** The image the video takes for index [k]. *)
Definition frame_image (dir : string) (w : World) (k : nat) : result ndarray :=
  let path := (dir ++ "/" ++ zfill 5 (str k) ++ ".png")%string in
  match fs w !! path with
  | Some f => imageio_imread f
  | None => Raise (FileNotFoundError path)
  end.

(** ** Computations that write no file *)

Definition keeps_fs {A} (c : M A) : Prop :=
  forall w, fs (snd (c w)) = fs w.

End Program.

(** ** Further notions used to state what the code does, and clean_mesh *)

From Stdlib Require DecimalNat DecimalFacts.

Section MoreProgram.

Context {ext : Externals}.

(** The Open3D parameters [to_cam_open3d] builds for one camera. *)
Definition cam_params (cam : Camera) : PinholeCameraParameters :=
  {| extrinsic := transpose (world_view_transform cam);
     intrinsic := pinhole cam |}.

(** A field of view whose half-angle has tangent 0 makes a focal length a
    division by zero. *)
Definition degenerate_fov (cam : Camera) : Prop :=
  (2 * tan (FoVx cam / 2) == 0)%Q \/ (2 * tan (FoVy cam / 2) == 0)%Q.

(** The lines [extract_mesh_bounded] prints before it integrates. *)
Definition integration_banner (voxel sdf dt : Q) : list event :=
  [EvPrint "Running tsdf volume integration ..." [];
   EvPrint "voxel_size: {}" [VFloat voxel];
   EvPrint "sdf_trunc: {}" [VFloat sdf];
   EvPrint "depth_truc: {}" [VFloat dt]].

(** The extractor as [clean] leaves it. *)
Definition cleaned (s : GaussianExtractor) : GaussianExtractor :=
  {| gaussians := gaussians s; depthmaps := PyList []; alphamaps := PyList [];
     rgbmaps := PyList []; normals := PyList []; depth_normals := PyList [];
     points := PyList []; viewpoint_stack := [] |}.


(** Views that all have the shape of one another, as [torch.stack] wants
    them. *)
Definition uniform (l : list tensor3) : Prop :=
  forall t u, t ∈ l -> u ∈ l -> shape3 t = shape3 u.

(** [args.num_cluster = v] and [args.mesh_res = v] *)
Definition set_num_cluster (v : Z) (a : Args) : Args :=
  {| model_path := model_path a; source_path := source_path a;
     iteration := iteration a; skip_train := skip_train a;
     skip_test := skip_test a; skip_mesh := skip_mesh a; quiet := quiet a;
     render_path := render_path a; voxel_size := voxel_size a;
     depth_trunc := depth_trunc a; num_cluster := v;
     unbounded := unbounded a; mesh_res := mesh_res a;
     white_background2 := white_background2 a; config := config a |}.

Definition set_mesh_res (v : Z) (a : Args) : Args :=
  {| model_path := model_path a; source_path := source_path a;
     iteration := iteration a; skip_train := skip_train a;
     skip_test := skip_test a; skip_mesh := skip_mesh a; quiet := quiet a;
     render_path := render_path a; voxel_size := voxel_size a;
     depth_trunc := depth_trunc a; num_cluster := num_cluster a;
     unbounded := unbounded a; mesh_res := v;
     white_background2 := white_background2 a; config := config a |}.

(** A computation that leaves the extractor, the heap and the trace alone,
    and removes no directory. *)
Definition only_writes {A} (c : M A) : Prop :=
  forall w, self (snd (c w)) = self w /\ heap (snd (c w)) = heap w /\
            trace (snd (c w)) = trace w /\ dirs w ⊆ dirs (snd (c w)).

(** A computation that leaves alone every file whose path is not in [P]. *)
Definition writes_within {A} (P : string -> Prop) (c : M A) : Prop :=
  forall w p, ~ P p -> fs (snd (c w)) !! p = fs w !! p.

(** The directory part a joined path starts with. *)
Definition dir_prefix (a : string) : string :=
  if bool_decide (a = "") || ends_with_slash a then a else (a ++ "/")%string.

(** The files [export_image] writes for view [idx] below [path]. *)
Definition gt_file (path : string) (idx : nat) : string :=
  path_join (path_join path "gt") (fmt05 idx ++ ".png").

Definition render_file (path : string) (idx : nat) : string :=
  path_join (path_join path "renders") (fmt05 idx ++ ".png").

Definition vis_files (path : string) (idx : nat) : list string :=
  [path_join (path_join path "vis") ("depth_" ++ fmt05 idx ++ ".tiff");
   path_join (path_join path "vis") ("depth_" ++ fmt05 idx ++ ".png");
   path_join (path_join path "vis") ("normal_" ++ fmt05 idx ++ ".png");
   path_join (path_join path "vis") ("depth_normal_" ++ fmt05 idx ++ ".png")].
Definition view_files (path : string) (idx : nat) : list string :=
  gt_file path idx :: render_file path idx :: vis_files path idx.

(** A computation that raises from every world. *)
Definition always_raises {A} (c : M A) : Prop :=
  forall w, exists e, fst (c w) = Raise e.

(** *** clean_mesh *)

(** The names bound at the top level of [render_mesh_trajectory.py] when
    [clean_mesh] can be called: its imports and [clean_mesh] itself. *)
Definition script_names : list string :=
  ["torch"; "Scene"; "DeformModel"; "os"; "tqdm"; "makedirs"; "render";
   "torchvision"; "safe_state"; "ArgumentParser"; "Namespace"; "ModelParams";
   "PipelineParams"; "get_combined_args"; "GaussianModel"; "GaussianExtractor";
   "to_cam_open3d"; "post_process_mesh"; "generate_path"; "create_videos";
   "load_config_from_file"; "merge_config"; "pose_spherical"; "o3d"; "np";
   "render_mesh"; "mesh_shape_renderer"; "cv2"; "copy"; "json"; "imageio";
   "Image"; "load_obj"; "clean_mesh"].

(** Whether a global name of the script is bound. *)
Definition is_bound (x : string) : bool := existsb (String.eqb x) script_names.

(** [mesh.method()] for a method of Open3D that changes the mesh in place. *)
Definition update_mesh (l : positive) (f : TriangleMesh -> TriangleMesh) : M unit :=
  let* m := read_mesh l in write_mesh l (f m).

End MoreProgram.

(** [NameError] is not among the exceptions the rest of the code can raise:
    [clean_mesh], which nothing calls, reports it in its outcome. *)
Inductive outcome (A : Type) :=
| Returns (a : A)
| RaisesNameError (msg : string).
Arguments Returns {A} a.
Arguments RaisesNameError {A} msg.

(** Open3D and trimesh methods only [clean_mesh] calls; [trimesh_repair] is
    what [o3d_to_trimesh], [process] and [fill_holes] would make of a mesh. *)
Class CleanExternals := {
  remove_duplicated_vertices : TriangleMesh -> TriangleMesh;
  remove_duplicated_triangles : TriangleMesh -> TriangleMesh;
  trimesh_repair : TriangleMesh -> TriangleMesh
}.

Section CleanMesh.

Context {ext : Externals} {cext : CleanExternals}.

(** [clean_mesh(mesh, edge_threshold, min_triangles_connected, fill_holes)]:
    the edge filter is inside a string literal and does not run. *)
Definition clean_mesh (mesh : positive) (edge_threshold : Q)
    (min_triangles_connected : Z) (fill_holes : bool) : M (outcome positive) :=
  update_mesh mesh remove_duplicated_vertices ;;
  update_mesh mesh remove_duplicated_triangles ;;
  update_mesh mesh remove_degenerate_triangles ;;
  (if (0 <? min_triangles_connected)%Z then
     let* m := read_mesh mesh in
     let '(triangle_clusters, cluster_n_triangles, cluster_area) :=
       cluster_connected_triangles m in
     let* triangles_to_remove :=
       lift (rmapM (fun c => rbind (np_index cluster_n_triangles c)
                               (fun n => Ok (n <? min_triangles_connected)%Z))
                   triangle_clusters) in
     let* m1 := lift (remove_triangles_by_mask triangles_to_remove m) in
     write_mesh mesh m1
   else ret tt) ;;
  update_mesh mesh remove_unreferenced_vertices ;;
  if fill_holes then
    if is_bound "o3d_to_trimesh" then
      let* m := read_mesh mesh in
      let* l := alloc_mesh (trimesh_repair m) in
      ret (Returns l)
    else ret (RaisesNameError "name 'o3d_to_trimesh' is not defined")
  else ret (Returns mesh).

End CleanMesh.

(** ** A small scene

    Two cameras looking at images of one pixel, the first with an alpha mask
    that hides the pixel, and stand-ins for the imported functions that can be
    run. *)

Definition identity4 : tensor2 :=
  [[1; 0; 0; 0]; [0; 1; 0; 0]; [0; 0; 1; 0]; [0; 0; 0; 1]]%Q.

Definition masked_camera : Camera :=
  {| image_width := 2; image_height := 2; FoVx := 1; FoVy := 1;
     world_view_transform := identity4;
     gt_alpha_mask := Some [[[0%Q]]];
     original_image := [[[1]]; [[1]]; [[1]]]%Q;
     fid := [0%Q]; time := 1; R := []; T := [] |}.

Definition plain_camera : Camera :=
  {| image_width := 2; image_height := 2; FoVx := 1; FoVy := 1;
     world_view_transform := identity4;
     gt_alpha_mask := None;
     original_image := [[[1]]; [[1]]; [[1]]]%Q;
     fid := [0%Q]; time := 2; R := []; T := [] |}.

Definition two_cameras : list Camera := [masked_camera; plain_camera].

Definition mlp_deform : DeformModel :=
  {| name := "mlp"; d_rot_as_res := false;
     step := fun _ _ _ _ =>
               {| d_xyz := []; d_rotation := []; d_scaling := [];
                  d_opacity := []; d_color := [] |};
     expand_time := fun _ => [] |}.

Definition one_gaussian : GaussianModel :=
  {| get_xyz := [[0; 0; 0]]%Q; feature := []; motion_mask := [];
     active_sh_degree := 3 |}.

(** The renderer of the small scene: an over-exposed pixel at the depth
    given by the time of the camera. *)
Definition pixel_render (cam : Camera) : render_pkg :=
  {| pkg_render := [[[3 # 2]]; [[1 # 4]]; [[- (1)]]]%Q;
     pkg_alpha := [[[1%Q]]];
     pkg_rend_normal := [[[0]]; [[0]]; [[1]]]%Q;
     pkg_depth := [[[time cam]]];
     pkg_surf_normal := [[[0]]; [[0]]; [[1]]]%Q |}.

(** The mesh of the small scene has one vertex per integrated frame, at the
    depth of the first pixel of the frame. *)
Definition first_pixel (t : tensor3) : Q := hd 0%Q (hd [] (hd [] t)).

Definition vertex_per_frame (v : ScalableTSDFVolume) : TriangleMesh :=
  {| vertices := map (fun fr => (first_pixel (rgbd_depth (fst (fst fr))), 0%Q, 0%Q))
                     (integrated v);
     triangles := []; vertex_colors := [] |}.

(** Triangles are clustered by their first corner: corners below 3 form
    cluster 0, the others cluster 1. *)
Definition cluster_of (t : Z * Z * Z) : Z :=
  if (fst (fst t) <? 3)%Z then 0%Z else 1%Z.

Definition cluster_by_corner (m : TriangleMesh) : list Z * list Z * list Q :=
  let cl := map cluster_of (triangles m) in
  (cl,
   [Z.of_nat (length (filter (fun c => c = 0%Z) cl));
    Z.of_nat (length (filter (fun c => c = 1%Z) cl))],
   [0%Q; 0%Q]).

Definition drop_degenerate (m : TriangleMesh) : TriangleMesh :=
  {| vertices := vertices m;
     triangles := filter (fun t => fst (fst t) <> snd (fst t)
                                   /\ snd (fst t) <> snd t
                                   /\ fst (fst t) <> snd t) (triangles m);
     vertex_colors := vertex_colors m |}.

Definition read_written (f : file) : result ndarray :=
  match f with
  | Written _ data => Ok data
  | _ => Raise (ValueError "Could not find a backend to open the file")
  end.

Definition small_scene : Scene :=
  {| getTrainCameras := two_cameras; getTestCameras := [plain_camera];
     getTrainCameras_mesh := fun _ => two_cameras; loaded_iter := 3 |}.

Definition small_externals : Externals :=
  {| tan := fun _ => 1%Q;
     normalize := fun t => t;
     Pipeline := unit;
     render := fun cam _ _ _ _ _ _ => pixel_render cam;
     extract_triangle_mesh := vertex_per_frame;
     cluster_connected_triangles := cluster_by_corner;
     remove_unreferenced_vertices := fun m => m;
     remove_degenerate_triangles := drop_degenerate;
     Dataset := unit;
     model_extract := fun _ => tt;
     sh_degree := fun _ => 3%Z;
     skinning := fun _ => false;
     hyper_dim := fun _ => 8%Z;
     gs_with_motion_mask := fun _ => false;
     white_background := fun _ => false;
     model_white_background := false;
     pipeline := tt;
     load_deform := fun _ _ => mlp_deform;
     node_num := fun _ => 0%Z;
     new_GaussianModel := fun _ _ _ => one_gaussian;
     load_scene := fun _ g _ => (small_scene, g);
     generate_path := fun cams _ => cams;
     pose_spherical := fun _ _ _ => identity4;
     np_linalg_inv := fun m => m;
     camera_cpu := fun c => c;
     render_mesh := fun _ _ _ _ _ => [[[1%Q]]];
     mesh_shape_renderer := fun _ _ _ => [[[1%Q]]];
     imageio_imread := read_written |}.

Definition empty_world : World :=
  {| self := {| gaussians := one_gaussian; depthmaps := PyList [];
                alphamaps := PyList []; rgbmaps := PyList [];
                normals := PyList []; depth_normals := PyList [];
                points := PyList []; viewpoint_stack := [] |};
     heap := ∅; fs := ∅; dirs := ∅; trace := [] |}.

(** The world after the two cameras have been reconstructed. *)
Definition reconstructed_world : World :=
  snd (reconstruction (ext := small_externals) two_cameras tt [0; 0; 0]%Q
                      mlp_deform "mesh" true empty_world).

(** The world after the mesh of the two views has been extracted with
    masking. *)
Definition fused_world : World :=
  snd (extract_mesh_bounded (ext := small_externals) (4 # 1000) (2 # 100) 6 true
                            reconstructed_world).

(** A mesh of three triangles, two of them connected, on the heap. *)
Definition three_triangles : TriangleMesh :=
  {| vertices := [(0, 0, 0); (1, 0, 0); (0, 1, 0); (1, 1, 0);
                  (5, 5, 5); (6, 5, 5); (5, 6, 5)]%Q;
     triangles := [(0, 1, 2); (1, 2, 3); (4, 5, 6)]%Z;
     vertex_colors := [] |}.

Definition mesh_world : World :=
  {| self := self empty_world; heap := {[ 1%positive := three_triangles ]};
     fs := ∅; dirs := ∅; trace := [] |}.

(** A directory of two rendered frames. *)
Definition frames_world : World :=
  {| self := self empty_world; heap := ∅;
     fs := {[ "out/mesh_shape/00000.png" := Written cv2_imwrite (Arr3 [[[1%Q]]]);
              "out/mesh_shape/00001.png" := Written cv2_imwrite (Arr3 [[[2%Q]]]) ]};
     dirs := {[ "out"; "out/mesh_shape" ]}; trace := [] |}.

(** Arguments as the parser returns them for a run that only exports
    meshes, and a world that holds the file the script opens. *)
Definition mesh_only_args : Args :=
  {| model_path := "out"; source_path := "data"; iteration := (-1);
     skip_train := true; skip_test := true; skip_mesh := false; quiet := false;
     render_path := false; voxel_size := 4 # 1000; depth_trunc := 3;
     num_cluster := 1000; unbounded := false; mesh_res := 1024;
     white_background2 := false; config := None |}.

Definition unbounded_args : Args :=
  {| model_path := "out"; source_path := "data"; iteration := (-1);
     skip_train := true; skip_test := true; skip_mesh := false; quiet := false;
     render_path := false; voxel_size := 4 # 1000; depth_trunc := 3;
     num_cluster := 1000; unbounded := true; mesh_res := 1024;
     white_background2 := false; config := None |}.

Definition video_only_args : Args :=
  {| model_path := "out"; source_path := "data"; iteration := (-1);
     skip_train := true; skip_test := true; skip_mesh := true; quiet := false;
     render_path := false; voxel_size := 4 # 1000; depth_trunc := 3;
     num_cluster := 1000; unbounded := false; mesh_res := 1024;
     white_background2 := false; config := None |}.

Definition dataset_world : World :=
  {| self := self empty_world; heap := ∅;
     fs := {[ "data/transforms_test.json" := Blob "{}";
              "out/mesh_shape/00000.png" := Written cv2_imwrite (Arr3 [[[1%Q]]]);
              "out/mesh_shape/00001.png" := Written cv2_imwrite (Arr3 [[[2%Q]]]) ]};
     dirs := {[ "out"; "out/mesh_shape" ]}; trace := [] |}.

(** ** More of the small scene *)

(** A camera whose horizontal field of view is 0, and stand-ins under which
    the tangent vanishes there. *)
Definition flat_camera : Camera :=
  {| image_width := 2; image_height := 2; FoVx := 0; FoVy := 1;
     world_view_transform := identity4;
     gt_alpha_mask := None;
     original_image := [[[1]]; [[1]]; [[1]]]%Q;
     fid := [0%Q]; time := 3; R := []; T := [] |}.

Definition linear_externals : Externals :=
  {| tan := fun x => x;
     normalize := fun t => t;
     Pipeline := unit;
     render := fun cam _ _ _ _ _ _ => pixel_render cam;
     extract_triangle_mesh := vertex_per_frame;
     cluster_connected_triangles := cluster_by_corner;
     remove_unreferenced_vertices := fun m => m;
     remove_degenerate_triangles := drop_degenerate;
     Dataset := unit;
     model_extract := fun _ => tt;
     sh_degree := fun _ => 3%Z;
     skinning := fun _ => false;
     hyper_dim := fun _ => 8%Z;
     gs_with_motion_mask := fun _ => false;
     white_background := fun _ => false;
     model_white_background := false;
     pipeline := tt;
     load_deform := fun _ _ => mlp_deform;
     node_num := fun _ => 0%Z;
     new_GaussianModel := fun _ _ _ => one_gaussian;
     load_scene := fun _ g _ => (small_scene, g);
     generate_path := fun cams _ => cams;
     pose_spherical := fun _ _ _ => identity4;
     np_linalg_inv := fun m => m;
     camera_cpu := fun c => c;
     render_mesh := fun _ _ _ _ _ => [[[1%Q]]];
     mesh_shape_renderer := fun _ _ _ => [[[1%Q]]];
     imageio_imread := read_written |}.

(** The world after a plain and the flat camera have been reconstructed. *)
Definition flat_world : World :=
  snd (reconstruction (ext := linear_externals) [plain_camera; flat_camera] tt
                      [0; 0; 0]%Q mlp_deform "mesh" true empty_world).

(** A deformation model of a kind the extractor does not know. *)
Definition rigid_deform : DeformModel :=
  {| name := "rigid"; d_rot_as_res := false;
     step := fun _ _ _ _ =>
               {| d_xyz := []; d_rotation := []; d_scaling := [];
                  d_opacity := []; d_color := [] |};
     expand_time := fun _ => [] |}.


(** The world after the images of the two views have been exported. *)
Definition exported_world : World :=
  snd (export_image "out" reconstructed_world).

(** Stand-ins for the methods only [clean_mesh] calls: duplicates are
    dropped from the triangle list, trimesh repairs nothing. *)
Definition small_clean_externals : CleanExternals :=
  {| remove_duplicated_vertices := fun m => m;
     remove_duplicated_triangles :=
       fun m => {| vertices := vertices m;
                   triangles := remove_dups (triangles m);
                   vertex_colors := vertex_colors m |};
     trimesh_repair := fun m => m |}.

(** A directory of two entries, only one of them a frame. *)
Definition gap_world : World :=
  {| self := self empty_world; heap := ∅;
     fs := {[ "out/mesh_shape/00000.png" := Written cv2_imwrite (Arr3 [[[1%Q]]]);
              "out/mesh_shape/notes.txt" := Blob "frames" ]};
     dirs := {[ "out"; "out/mesh_shape" ]}; trace := [] |}.

Section Properties.

Context {ext : Externals}.

(** ** Reasoning about computations *)

Lemma bind_Ok {A B} (c : M A) (k : A -> M B) w b w' :
  bind c k w = (Ok b, w') ->
  exists a w1, c w = (Ok a, w1) /\ k a w1 = (Ok b, w').
Proof.
  unfold bind. destruct (c w) as [[a|e] w1]; intros H.
  - exists a, w1. split; [reflexivity | exact H].
  - discriminate H.
Qed.

Lemma lift_Ok {A} (r : result A) w a w' :
  lift r w = (Ok a, w') -> r = Ok a /\ w' = w.
Proof. unfold lift. intros H. inversion H. split; reflexivity. Qed.

Lemma rbind_Ok {A B} (r : result A) (k : A -> result B) b :
  rbind r k = Ok b -> exists a, r = Ok a /\ k a = Ok b.
Proof. destruct r as [a|e]; simpl; intros H; [eauto | discriminate]. Qed.

(** Peels the successful run of a sequence of bound computations. *)
Ltac run H :=
  repeat match type of H with
         | bind _ _ _ = (Ok _, _) =>
             let a := fresh "a" in
             let w := fresh "w" in
             let H1 := fresh "Hrun" in
             apply bind_Ok in H; destruct H as (a & w & H1 & H)
         end.

Lemma append_to_Ok get set t w u w' :
  append_to get set t w = (Ok u, w') ->
  exists l, get (self w) = PyList l /\
            w' = set_self (set (PyList (l ++ [t])) (self w)) w.
Proof.
  unfold append_to, bind, get_self, lift, modify_self, append. simpl.
  destruct (get (self w)) as [l|l]; intros H; inversion H.
  exists l. split; reflexivity.
Qed.

Lemma reconstruct_view_Ok pipeline_ background deform state df cam w w' :
  reconstruct_view pipeline_ background deform state df cam w = (Ok tt, w') ->
  exists pkg r d a n dn,
    rendered (gaussians (self w)) pipeline_ background deform state df cam pkg /\
    rgbmaps (self w) = PyList r /\ depthmaps (self w) = PyList d /\
    alphamaps (self w) = PyList a /\ normals (self w) = PyList n /\
    depth_normals (self w) = PyList dn /\
    w' = set_trace (trace w ++ [EvRender cam])
           (set_self
              {| gaussians := gaussians (self w);
                 depthmaps := PyList (d ++ [pkg_depth pkg]);
                 alphamaps := PyList (a ++ [pkg_alpha pkg]);
                 rgbmaps := PyList (r ++ [rgb_of pkg]);
                 normals := PyList (n ++ [normalize (pkg_rend_normal pkg)]);
                 depth_normals := PyList (dn ++ [pkg_surf_normal pkg]);
                 points := points (self w);
                 viewpoint_stack := viewpoint_stack (self w) |} w).
Proof.
  intros H. unfold reconstruct_view in H.
  run H.
  inversion Hrun; subst a w0; clear Hrun.
  apply lift_Ok in Hrun0 as [Hti ->].
  unfold call_render, bind, emit, ret in Hrun1. simpl in Hrun1.
  inversion Hrun1; subst a1 w2; clear Hrun1.
  apply lift_Ok in Hrun2 as [Hcat ->].
  unfold cat in Hcat. case_decide as Hshape; [|discriminate].
  inversion Hcat; subst a2; clear Hcat.
  apply append_to_Ok in Hrun3 as (r & Hr & ->).
  apply append_to_Ok in Hrun4 as (d & Hd & ->).
  apply append_to_Ok in Hrun5 as (a & Ha & ->).
  apply append_to_Ok in Hrun6 as (n & Hn & ->).
  apply append_to_Ok in H as (dn & Hdn & ->).
  simpl in *.
  eexists _, r, d, a, n, dn.
  split; [exists a0; split; [exact Hti | split; [reflexivity | exact Hshape]] |].
  repeat (split; [assumption |]).
  destruct w as [s h f dd t]; reflexivity.
Qed.

Lemma stack_Ok l l' :
  stack l = Ok l' -> l' = l /\ l <> [].
Proof.
  destruct l as [|t tl]; simpl; [discriminate |].
  destruct (forallb _ tl); intros H; inversion H. split; [reflexivity | discriminate].
Qed.

Lemma stack_attr_Ok get set w u w' :
  stack_attr get set w = (Ok u, w') ->
  views (get (self w)) <> [] /\
  w' = set_self (set (Stacked (views (get (self w)))) (self w)) w.
Proof.
  unfold stack_attr, bind, get_self, lift, modify_self. simpl.
  destruct (stack (views (get (self w)))) as [l|e] eqn:E; intros Hs; inversion Hs.
  apply stack_Ok in E as [-> Hne]. split; [exact Hne | reflexivity].
Qed.

Lemma reconstruct_loop_Ok pipeline_ background deform state df cams :
  forall w w' r d a n dn,
    for_each cams (reconstruct_view pipeline_ background deform state df) w
    = (Ok tt, w') ->
    rgbmaps (self w) = PyList r -> depthmaps (self w) = PyList d ->
    alphamaps (self w) = PyList a -> normals (self w) = PyList n ->
    depth_normals (self w) = PyList dn ->
    exists pkgs,
      Forall2 (rendered (gaussians (self w)) pipeline_ background deform state df)
              cams pkgs /\
      w' = set_trace (trace w ++ map EvRender cams)
             (set_self
                {| gaussians := gaussians (self w);
                   depthmaps := PyList (d ++ map pkg_depth pkgs);
                   alphamaps := PyList (a ++ map pkg_alpha pkgs);
                   rgbmaps := PyList (r ++ map rgb_of pkgs);
                   normals :=
                     PyList (n ++ map (fun k => normalize (pkg_rend_normal k)) pkgs);
                   depth_normals := PyList (dn ++ map pkg_surf_normal pkgs);
                   points := points (self w);
                   viewpoint_stack := viewpoint_stack (self w) |} w).
Proof.
  induction cams as [|cam cams IH]; intros w w' r d a n dn H Hr Hd Ha Hn Hdn.
  - simpl in H. inversion H; subst w'. exists []. split; [constructor |].
    simpl. rewrite !app_nil_r.
    destruct w as [s h f dd t]; destruct s; simpl in *. subst. reflexivity.
  - simpl in H. run H. destruct a0.
    apply reconstruct_view_Ok in Hrun
      as (pkg & r' & d' & a' & n' & dn' & Hpkg & Hr' & Hd' & Ha' & Hn' & Hdn' & ->).
    assert (r' = r) as -> by congruence. assert (d' = d) as -> by congruence.
    assert (a' = a) as -> by congruence. assert (n' = n) as -> by congruence.
    assert (dn' = dn) as -> by congruence.
    eapply IH in H; try reflexivity.
    destruct H as (pkgs & Hall & ->).
    exists (pkg :: pkgs). split; [constructor; assumption |].
    simpl. rewrite <- !app_assoc. reflexivity.
Qed.

Lemma reconstruction_Ok cams pipeline_ background deform state df w w' :
  reconstruction cams pipeline_ background deform state df w = (Ok tt, w') ->
  exists pkgs,
    Forall2 (rendered (gaussians (self w)) pipeline_ background deform state df)
            cams pkgs /\
    w' = set_trace (trace w ++ map EvRender cams)
           (set_self
              {| gaussians := gaussians (self w);
                 depthmaps := Stacked (map pkg_depth pkgs);
                 alphamaps := Stacked (map pkg_alpha pkgs);
                 rgbmaps := Stacked (map rgb_of pkgs);
                 normals := PyList (map (fun k => normalize (pkg_rend_normal k)) pkgs);
                 depth_normals := Stacked (map pkg_surf_normal pkgs);
                 points := PyList [];
                 viewpoint_stack := cams |} w).
Proof.
  intros H. unfold reconstruction in H. run H.
  unfold clean, modify_self in Hrun. inversion Hrun; subst w0; clear Hrun.
  unfold modify_self in Hrun0. inversion Hrun0; subst w1; clear Hrun0.
  inversion Hrun1; subst a1 w2; clear Hrun1.
  destruct a2.
  eapply reconstruct_loop_Ok in Hrun2; try reflexivity.
  destruct Hrun2 as (pkgs & Hall & ->).
  apply stack_attr_Ok in Hrun3 as [_ ->].
  apply stack_attr_Ok in Hrun4 as [_ ->].
  apply stack_attr_Ok in Hrun5 as [_ ->].
  apply stack_attr_Ok in H as [_ ->].
  exists pkgs. split; [exact Hall |].
  destruct w as [s h f dd t]; reflexivity.
Qed.



(** C2: a completed [reconstruction] over [cams] starts from cleaned
    buffers, renders every camera once and in order, keeps [cams] as the
    viewpoint stack, and leaves the colour, depth, opacity and depth-normal
    buffers as stacked tensors of [length cams] views (the normals as a list
    of as many tensors), the i-th view being the one rendered from the i-th
    camera. *)
Theorem reconstruction_accumulates cams pipeline_ background deform state df w w' :
  reconstruction cams pipeline_ background deform state df w = (Ok tt, w') ->
  exists pkgs,
    Forall2 (rendered (gaussians (self w)) pipeline_ background deform state df)
            cams pkgs /\
    trace w' = trace w ++ map EvRender cams /\
    viewpoint_stack (self w') = cams /\
    rgbmaps (self w') = Stacked (map rgb_of pkgs) /\
    depthmaps (self w') = Stacked (map pkg_depth pkgs) /\
    alphamaps (self w') = Stacked (map pkg_alpha pkgs) /\
    depth_normals (self w') = Stacked (map pkg_surf_normal pkgs) /\
    normals (self w')
    = PyList (map (fun k => normalize (pkg_rend_normal k)) pkgs) /\
    points (self w') = PyList [] /\
    length (views (rgbmaps (self w'))) = length cams /\
    length (views (depthmaps (self w'))) = length cams /\
    length (views (alphamaps (self w'))) = length cams /\
    length (views (depth_normals (self w'))) = length cams /\
    length (views (normals (self w'))) = length cams.
Proof.
  intros H. apply reconstruction_Ok in H as (pkgs & Hall & ->).
  exists pkgs. pose proof (Forall2_length _ _ _ Hall) as Hlen.
  simpl. rewrite !length_map.
  repeat split; auto.
Qed.









Lemma rmapM_Ok {A B} (f : A -> result B) l l' :
  rmapM f l = Ok l' -> Forall2 (fun x y => f x = Ok y) l l'.
Proof.
  revert l'. induction l as [|x l IH]; intros l' H; simpl in H.
  - simplify_eq. constructor.
  - apply rbind_Ok in H as (y & Hy & H).
    apply rbind_Ok in H as (ys & Hys & H). simplify_eq.
    constructor; [exact Hy | apply IH, Hys].
Qed.

















Lemma read_mesh_Ok l w m w' :
  read_mesh l w = (Ok m, w') -> heap w !! l = Some m /\ w' = w.
Proof.
  unfold read_mesh. destruct (heap w !! l); intros H; simplify_eq. split; reflexivity.
Qed.

Lemma fresh_heap_None (h : gmap positive TriangleMesh) : h !! fresh (dom h) = None.
Proof. apply not_elem_of_dom, is_fresh. Qed.

Lemma post_process_mesh_Ok mesh n w l' w' :
  post_process_mesh mesh n w = (Ok l', w') ->
  exists m clusters n_tri areas mask,
    heap w !! mesh = Some m /\
    cluster_connected_triangles m = (clusters, n_tri, areas) /\
    Forall2 (small_cluster n_tri n) clusters mask /\
    length mask = length (triangles m) /\
    heap w' !! l'
    = Some (remove_degenerate_triangles
              (remove_unreferenced_vertices
                 {| vertices := vertices m;
                    triangles := kept_triangles m mask;
                    vertex_colors := vertex_colors m |})) /\
    heap w !! l' = None /\
    heap w' !! mesh = Some m /\
    forall l, l <> l' -> heap w' !! l = heap w !! l.
Proof.
  intros H. unfold post_process_mesh in H. run H.
  unfold print, emit in Hrun. simplify_eq.
  unfold deepcopy in Hrun0. run Hrun0.
  apply read_mesh_Ok in Hrun as [Hm ->]. simpl in Hm.
  unfold alloc_mesh in Hrun0. simpl in Hrun0. simplify_eq.
  apply read_mesh_Ok in Hrun1 as [Hm0 ->]. simpl in Hm0.
  rewrite lookup_insert_eq in Hm0. simplify_eq.
  destruct (cluster_connected_triangles a1) as [[clusters n_tri] areas] eqn:Ecl.
  run H. apply lift_Ok in Hrun as [Hmask ->]. apply lift_Ok in Hrun0 as [Hrm ->].
  unfold write_mesh in Hrun1, Hrun2, Hrun3. simplify_eq.
  apply read_mesh_Ok in Hrun4 as [_ ->].
  unfold print, emit in Hrun5. simplify_eq.
  apply read_mesh_Ok in Hrun6 as [_ ->].
  unfold print, emit in Hrun7. unfold ret in H. simplify_eq.
  unfold remove_triangles_by_mask in Hrm. case_decide as Hlen; [|discriminate].
  simplify_eq. simpl.
  exists a1, clusters, n_tri, areas, a. split; [exact Hm |]. split; [exact Ecl |].
  split.
  { apply rmapM_Ok in Hmask. eapply Forall2_impl; [exact Hmask |].
    intros c b Hcb. apply rbind_Ok in Hcb as (k & Hk & Hb). simplify_eq.
    exists k. split; [exact Hk | reflexivity]. }
  split; [exact Hlen |].
  split; [rewrite lookup_insert_eq; reflexivity |].
  split; [apply fresh_heap_None |].
  assert (mesh <> fresh (dom (heap w))) as Hne.
  { intros ->. rewrite fresh_heap_None in Hm. discriminate. }
  split.
  - rewrite !lookup_insert_ne by (intros E; apply Hne; symmetry; exact E). exact Hm.
  - intros l Hl. rewrite !lookup_insert_ne by (intros E; apply Hl; symmetry; exact E).
    reflexivity.
Qed.

Lemma rmapM_total {A B} (f : A -> result B) l :
  Forall (fun x => exists y, f x = Ok y) l -> exists l', rmapM f l = Ok l'.
Proof.
  induction 1 as [|x l [y Hy] _ [l' IH]]; simpl.
  - exists []. reflexivity.
  - rewrite Hy. simpl. rewrite IH. simpl. eauto.
Qed.

Lemma np_index_in_range {A} (a : list A) (i : Z) :
  (0 <= i < Z.of_nat (length a))%Z -> exists x, np_index a i = Ok x.
Proof.
  intros Hi. unfold np_index.
  destruct (Z.ltb_spec i 0); [lia |].
  destruct (Z.leb_spec 0 i); [|lia].
  destruct (Z.ltb_spec i (Z.of_nat (length a))); [|lia]. simpl.
  unfold index. destruct (a !! Z.to_nat i) as [x|] eqn:E; [eauto |].
  apply lookup_ge_None in E. lia.
Qed.

(** C6: for a mesh whose triangles Open3D has clustered (one cluster per
    triangle, every cluster with its number of triangles), and for every
    threshold, [post_process_mesh] returns a new mesh object: the input mesh
    without the triangles of the clusters that have fewer than the threshold
    number of triangles, then without unreferenced vertices and degenerate
    triangles; the mesh passed in, like every other object, is as it
    was. *)
Theorem post_process_mesh_filters mesh n w m clusters n_tri areas :
  heap w !! mesh = Some m ->
  cluster_connected_triangles m = (clusters, n_tri, areas) ->
  length clusters = length (triangles m) ->
  Forall (fun c => (0 <= c < Z.of_nat (length n_tri))%Z) clusters ->
  exists l' w' mask,
    post_process_mesh mesh n w = (Ok l', w') /\
    Forall2 (small_cluster n_tri n) clusters mask /\
    heap w' !! l'
    = Some (remove_degenerate_triangles
              (remove_unreferenced_vertices
                 {| vertices := vertices m;
                    triangles := kept_triangles m mask;
                    vertex_colors := vertex_colors m |})) /\
    heap w !! l' = None /\
    heap w' !! mesh = Some m /\
    forall l, l <> l' -> heap w' !! l = heap w !! l.
Proof.
  intros Hm Ecl Hlen Hrange.
  destruct (rmapM_total
              (fun c => rbind (np_index n_tri c) (fun k => Ok (k <? n)%Z)) clusters)
    as [mask Hmask].
  { eapply Forall_impl; [exact Hrange |]. intros c Hc.
    destruct (np_index_in_range n_tri c Hc) as [k Hk]. rewrite Hk. simpl. eauto. }
  pose proof (Forall2_length _ _ _ (rmapM_Ok _ _ _ Hmask)) as Hlm.
  destruct (post_process_mesh mesh n w) as [[l'|e] w'] eqn:Hrun.
  - destruct (post_process_mesh_Ok _ _ _ _ _ Hrun)
      as (m' & cl & nt & ar & mask' & Hm' & Ecl' & Hall & _ & Hnew & Hfresh & Hold & Hrest).
    rewrite Hm in Hm'. simplify_eq. rewrite Ecl in Ecl'. simplify_eq.
    exists l', w', mask'. repeat split; assumption.
  - exfalso. revert Hrun.
    unfold post_process_mesh, deepcopy, bind, print, emit, read_mesh, alloc_mesh,
      write_mesh, lift, ret. simpl.
    rewrite Hm. simpl. rewrite lookup_insert_eq, Ecl, Hmask.
    unfold remove_triangles_by_mask.
    rewrite decide_True by congruence. simpl.
    assert (fresh (dom (heap w)) <> mesh) as Hne.
    { intros E. rewrite <- E, fresh_heap_None in Hm. discriminate. }
    rewrite !lookup_insert_ne by exact Hne. rewrite Hm. simpl.
    rewrite lookup_insert_eq. discriminate.
Qed.

Lemma read_images_spec dir ks w :
  read_images dir ks w = (rmapM (frame_image dir w) ks, w).
Proof.
  induction ks as [|k ks IH]; simpl; [reflexivity |].
  unfold imread, open_read, bind, lift, frame_image.
  destruct (fs w !! _) as [f|]; simpl; [|reflexivity].
  destruct (imageio_imread f) as [img|e]; simpl; [|reflexivity].
  rewrite IH. destruct (rmapM _ ks); reflexivity.
Qed.

Lemma Forall2_rmapM {A B} (f : A -> result B) l l' :
  Forall2 (fun x y => f x = Ok y) l l' -> rmapM f l = Ok l'.
Proof.
  induction 1 as [|x y l l' Hxy _ IH]; simpl; [reflexivity |].
  rewrite Hxy. simpl. rewrite IH. reflexivity.
Qed.

Lemma append_data_trace images w :
  for_each images (fun image => emit (EvAppendData image)) w
  = (Ok tt, set_trace (trace w ++ map EvAppendData images) w).
Proof.
  revert w. induction images as [|image images IH]; intros w; simpl.
  - unfold ret. rewrite app_nil_r. destruct w; reflexivity.
  - unfold bind, emit. rewrite IH. simpl. rewrite <- app_assoc. reflexivity.
Qed.

(** C7: the video is written through one writer, opened on
    [output_video.mp4] at 25 frames per second, to which are appended, for k
    from 0 up to the number of entries of the directory and in this order,
    the images read from the files [str(k).zfill(5) + ".png"] of the
    directory. *)
Theorem assemble_video_frames dir w images :
  Forall2 (fun k image =>
             exists f, fs w !! (dir ++ "/" ++ zfill 5 (str k) ++ ".png")%string = Some f /\
                       imageio_imread f = Ok image)
          (seq 0 (length (listdir dir w))) images ->
  assemble_video dir w
  = (Ok tt,
     set_trace (trace w ++ [EvGetWriter "output_video.mp4" 25]
                        ++ map EvAppendData images ++ [EvCloseWriter]) w).
Proof.
  intros Hall. unfold assemble_video, bind, count_entries.
  rewrite read_images_spec.
  rewrite (Forall2_rmapM (frame_image dir w) _ images).
  - unfold emit. rewrite append_data_trace. simpl.
    rewrite <- !app_assoc. reflexivity.
  - eapply Forall2_impl; [exact Hall |].
    intros k image (f & Hf & Hread). unfold frame_image. rewrite Hf. exact Hread.
Qed.


(** C3: the call [post_process_mesh(mesh, cluster_to_keep=n)] of the export
    loop is rejected: the function has no parameter of that name, and the
    call raises [TypeError] before its body runs. *)
Theorem post_process_mesh_call_raises args scene train_dir images_save_path
    meshshape_save_path i mesh w :
  call_post_process_mesh [VMesh mesh] [("cluster_to_keep", VInt (num_cluster args))] w
  = (Raise (TypeError
              "post_process_mesh() got an unexpected keyword argument 'cluster_to_keep'"),
     w) /\
  frame_images args scene train_dir images_save_path meshshape_save_path i mesh w
  = (Raise (TypeError
              "post_process_mesh() got an unexpected keyword argument 'cluster_to_keep'"),
     w).
Proof. split; reflexivity. Qed.

(** C4: with [--unbounded] the export loop calls a method the class does
    not have: the call raises [AttributeError]. *)
Theorem extract_mesh_unbounded_missing resolution w :
  has_attribute GaussianExtractor_methods GaussianExtractor_attributes
                "extract_mesh_unbounded" = false /\
  call_mesh_method "extract_mesh_unbounded" [("resolution", VInt resolution)] w
  = (Raise (AttributeError
              "'GaussianExtractor' object has no attribute 'extract_mesh_unbounded'"),
     w).
Proof. split; reflexivity. Qed.

Lemma keeps_fs_bind {A B} (c : M A) (k : A -> M B) :
  keeps_fs c -> (forall a, keeps_fs (k a)) -> keeps_fs (bind c k).
Proof.
  intros Hc Hk w. unfold bind. specialize (Hc w).
  destruct (c w) as [[a|e] w1]; simpl in *; [|exact Hc].
  rewrite Hk. exact Hc.
Qed.

Lemma keeps_fs_ret {A} (a : A) : keeps_fs (ret a).
Proof. intros w. reflexivity. Qed.

Lemma keeps_fs_raise {A} e : keeps_fs (@raise A e).
Proof. intros w. reflexivity. Qed.

Lemma keeps_fs_lift {A} (r : result A) : keeps_fs (lift r).
Proof. intros w. reflexivity. Qed.

Lemma keeps_fs_get_self : keeps_fs get_self.
Proof. intros w. reflexivity. Qed.

Lemma keeps_fs_modify_self f : keeps_fs (modify_self f).
Proof. intros w. reflexivity. Qed.

Lemma keeps_fs_print fmt args : keeps_fs (print fmt args).
Proof. intros w. reflexivity. Qed.

Lemma keeps_fs_emit e : keeps_fs (emit e).
Proof. intros w. reflexivity. Qed.

Lemma keeps_fs_makedirs p : keeps_fs (makedirs p).
Proof. intros w. reflexivity. Qed.

Lemma keeps_fs_alloc_mesh m : keeps_fs (alloc_mesh m).
Proof. intros w. reflexivity. Qed.

Lemma keeps_fs_for_each {A} (l : list A) body :
  (forall x, keeps_fs (body x)) -> keeps_fs (for_each l body).
Proof.
  intros Hbody. induction l as [|x l IH]; simpl.
  - apply keeps_fs_ret.
  - apply keeps_fs_bind; [apply Hbody | intros _; exact IH].
Qed.

Create HintDb keeps_fs.

#[local] Hint Resolve keeps_fs_ret keeps_fs_raise keeps_fs_lift keeps_fs_get_self
  keeps_fs_modify_self keeps_fs_print keeps_fs_emit keeps_fs_makedirs
  keeps_fs_alloc_mesh : keeps_fs.

(** Splits a sequence of computations into its steps. *)
Ltac keeps_fs_steps :=
  repeat first
    [ solve [auto with keeps_fs nocore]
    | apply keeps_fs_bind; [| intros ?]
    | match goal with
      | |- keeps_fs (if ?b then _ else _) => destruct b
      | |- keeps_fs (match ?x with Some _ => _ | None => _ end) => destruct x
      end ].

Lemma keeps_fs_reconstruction cams pipeline_ background deform state df :
  keeps_fs (reconstruction cams pipeline_ background deform state df).
Proof.
  unfold reconstruction, clean, stack_attr. keeps_fs_steps.
  apply keeps_fs_for_each. intros cam.
  unfold reconstruct_view, call_render, append_to. keeps_fs_steps.
Qed.

#[local] Hint Resolve keeps_fs_reconstruction : keeps_fs.

Lemma keeps_fs_integrate_views mb dt cams :
  forall i volume, keeps_fs (integrate_views mb dt i cams volume).
Proof.
  induction cams as [|c cams IH]; intros i volume; simpl.
  - apply keeps_fs_ret.
  - apply keeps_fs_bind; [| intros v; apply IH].
    unfold integrate_view. keeps_fs_steps.
Qed.

Lemma keeps_fs_extract_mesh_bounded voxel sdf dt mb :
  keeps_fs (extract_mesh_bounded voxel sdf dt mb).
Proof.
  unfold extract_mesh_bounded. keeps_fs_steps.
  apply keeps_fs_integrate_views.
Qed.

#[local] Hint Resolve keeps_fs_extract_mesh_bounded : keeps_fs.

Lemma keeps_fs_frame_mesh args scene background deform train_dir i :
  keeps_fs (frame_mesh args scene background deform train_dir i).
Proof.
  unfold frame_mesh. keeps_fs_steps.
Qed.

(** C5: a round of the export loop writes no file at all, so no
    [frame_{i}.ply] either; it ends by raising an exception. *)
Theorem mesh_frame_writes_no_mesh args scene background deform train_dir
    images_save_path meshshape_save_path i w :
  (exists e, fst (mesh_frame args scene background deform train_dir
                             images_save_path meshshape_save_path i w) = Raise e) /\
  fs (snd (mesh_frame args scene background deform train_dir
                      images_save_path meshshape_save_path i w)) = fs w /\
  fs (snd (mesh_frame args scene background deform train_dir
                      images_save_path meshshape_save_path i w))
     !! path_join train_dir ("frame_" ++ str i ++ ".ply")
  = fs w !! path_join train_dir ("frame_" ++ str i ++ ".ply").
Proof.
  pose proof (keeps_fs_frame_mesh args scene background deform train_dir i w) as Hfs.
  unfold mesh_frame, bind.
  destruct (frame_mesh args scene background deform train_dir i w)
    as [[mesh|e] w1]; simpl in *.
  - rewrite Hfs. split; [eauto | split; reflexivity].
  - rewrite Hfs. split; [eauto | split; reflexivity].
Qed.

End Properties.

(** * Further properties of the two files *)

Section MoreProperties.

Context {ext : Externals}.

(** Peels the successful run of a sequence of bound computations. *)
Ltac run_ok H :=
  repeat match type of H with
         | bind _ _ _ = (Ok _, _) =>
             let a := fresh "a" in
             let w := fresh "w" in
             let H1 := fresh "Hrun" in
             apply bind_Ok in H; destruct H as (a & w & H1 & H)
         end.

(** ** to_cam_open3d *)

Lemma py_div_nonzero a b : ~ (b == 0)%Q -> py_div a b = Ok (a / b)%Q.
Proof.
  intros Hb. unfold py_div. destruct (Qeq_bool b 0) eqn:E; [|reflexivity].
  apply Qeq_bool_iff in E. contradiction.
Qed.

Lemma py_div_zero a b : (b == 0)%Q -> py_div a b = Raise ZeroDivisionError.
Proof.
  intros Hb. unfold py_div. apply Qeq_bool_iff in Hb. rewrite Hb. reflexivity.
Qed.

Lemma cam_open3d_regular cam :
  ~ degenerate_fov cam -> cam_open3d cam = Ok (cam_params cam).
Proof.
  intros Hnd. unfold cam_open3d.
  rewrite !py_div_nonzero; [reflexivity | |]; intros E; apply Hnd; [right | left]; exact E.
Qed.

Lemma cam_open3d_degenerate cam :
  degenerate_fov cam -> cam_open3d cam = Raise ZeroDivisionError.
Proof.
  intros [Hx|Hy]; unfold cam_open3d.
  - rewrite (py_div_zero _ _ Hx). reflexivity.
  - rewrite (py_div_zero _ _ Hy).
    destruct (py_div _ (2 * tan (FoVx cam / 2))%Q) as [q|e] eqn:E; [reflexivity |].
    unfold py_div in E. destruct (Qeq_bool _ 0); simplify_eq. reflexivity.
Qed.

Lemma cam_open3d_raises_only_division cam e :
  cam_open3d cam = Raise e -> e = ZeroDivisionError.
Proof.
  unfold cam_open3d, py_div.
  destruct (Qeq_bool (2 * tan (FoVx cam / 2)) 0); simpl; [congruence |].
  destruct (Qeq_bool (2 * tan (FoVy cam / 2)) 0); simpl; congruence.
Qed.

Lemma to_cam_open3d_regular cams :
  Forall (fun cam => ~ degenerate_fov cam) cams ->
  to_cam_open3d cams = Ok (map cam_params cams).
Proof.
  unfold to_cam_open3d. induction 1 as [|cam cams Hcam _ IH]; simpl; [reflexivity |].
  rewrite (cam_open3d_regular _ Hcam). simpl. rewrite IH. reflexivity.
Qed.

Lemma to_cam_open3d_degenerate cams :
  Exists degenerate_fov cams -> to_cam_open3d cams = Raise ZeroDivisionError.
Proof.
  unfold to_cam_open3d. induction 1 as [cam cams Hcam|cam cams _ IH]; simpl.
  - rewrite (cam_open3d_degenerate _ Hcam). reflexivity.
  - destruct (cam_open3d cam) as [c|e] eqn:E; simpl.
    + rewrite IH. reflexivity.
    + apply cam_open3d_raises_only_division in E. subst e. reflexivity.
Qed.

(** X1: [to_cam_open3d] returns one set of parameters per camera, in order,
    when no camera has a degenerate field of view, and raises
    [ZeroDivisionError] as soon as one has. *)
Theorem to_cam_open3d_divides cams :
  (Forall (fun cam => ~ degenerate_fov cam) cams ->
   to_cam_open3d cams = Ok (map cam_params cams)) /\
  (Exists degenerate_fov cams ->
   to_cam_open3d cams = Raise ZeroDivisionError).
Proof.
  split; [apply to_cam_open3d_regular | apply to_cam_open3d_degenerate].
Qed.

(** ** extract_mesh_bounded on its edges *)

(** X2: with a camera of degenerate field of view on the stack,
    [extract_mesh_bounded] prints its banner and raises [ZeroDivisionError]
    before it integrates or masks anything: the extractor, the heap and the
    files are as they were. *)
Theorem extract_mesh_bounded_degenerate voxel sdf dt mb w :
  Exists degenerate_fov (viewpoint_stack (self w)) ->
  extract_mesh_bounded voxel sdf dt mb w
  = (Raise ZeroDivisionError,
     set_trace (trace w ++ integration_banner voxel sdf dt) w).
Proof.
  intros Hdeg. unfold extract_mesh_bounded, bind, print, emit, get_self, lift. simpl.
  rewrite (to_cam_open3d_degenerate _ Hdeg). unfold integration_banner.
  rewrite <- !app_assoc. destruct w; reflexivity.
Qed.

(** X3: on an extractor without cameras (as [clean] leaves it)
    [extract_mesh_bounded] integrates nothing and returns, as a new object,
    the mesh of the empty volume; the extractor is as it was. *)
Theorem extract_mesh_bounded_without_views voxel sdf dt mb w :
  viewpoint_stack (self w) = [] ->
  exists l w',
    extract_mesh_bounded voxel sdf dt mb w = (Ok l, w') /\
    heap w !! l = None /\
    heap w' !! l
    = Some (extract_triangle_mesh
              {| voxel_length := voxel; sdf_trunc := sdf; color_type := RGB8;
                 integrated := [] |}) /\
    self w' = self w /\
    trace w' = trace w ++ integration_banner voxel sdf dt.
Proof.
  intros Hvs. eexists _, _. split.
  - unfold extract_mesh_bounded, bind, print, emit, get_self, lift. simpl.
    rewrite Hvs. simpl. reflexivity.
  - simpl. split; [apply fresh_heap_None |].
    split; [apply lookup_insert_eq |]. split; [reflexivity |].
    unfold integration_banner. rewrite <- !app_assoc. reflexivity.
Qed.



(** ** Masking *)









(** ** Running the integration forwards *)










(** ** reconstruction on its edges *)

Lemma bind_same_start {A B} (c : M A) (k : A -> M B) w1 w2 :
  c w1 = c w2 -> bind c k w1 = bind c k w2.
Proof. intros H. unfold bind. rewrite H. reflexivity. Qed.

Lemma clean_forgets s' w :
  gaussians s' = gaussians (self w) -> clean (set_self s' w) = clean w.
Proof.
  intros H. unfold clean, modify_self, set_self. simpl. rewrite H. reflexivity.
Qed.

(** X7: [reconstruction] starts afresh: whether it completes or raises, its
    result and the world it leaves depend on the extractor only through its
    Gaussians, not on the buffers or the cameras of an earlier run; over no
    camera it raises [RuntimeError] (there is nothing to stack) and leaves
    the buffers cleaned. *)
Theorem reconstruction_starts_afresh cams pipeline_ background deform state df w s' :
  gaussians s' = gaussians (self w) ->
  reconstruction cams pipeline_ background deform state df (set_self s' w)
  = reconstruction cams pipeline_ background deform state df w /\
  reconstruction [] pipeline_ background deform state df (set_self s' w)
  = (Raise (RuntimeError "stack expects a non-empty TensorList"),
     set_self (cleaned (self w)) w).
Proof.
  intros H. split.
  - unfold reconstruction. apply bind_same_start, clean_forgets, H.
  - unfold reconstruction.
    rewrite (bind_same_start clean _ _ w (clean_forgets _ _ H)).
    reflexivity.
Qed.

Lemma deform_time_input_unbound deform fid_ xyz var :
  name deform <> "mlp" -> name deform <> "node" ->
  deform_time_input deform fid_ xyz var = Raise (UnboundLocalError var).
Proof.
  intros Hmlp Hnode. unfold deform_time_input.
  destruct (String.eqb_spec (name deform) "mlp"); [contradiction |].
  destruct (String.eqb_spec (name deform) "node"); [contradiction |].
  reflexivity.
Qed.

(** X8: with a deformation model whose name is neither ["mlp"] nor
    ["node"], [reconstruction] over at least one camera raises
    [UnboundLocalError] at the first camera, before anything is rendered; the
    buffers are left cleaned, with the cameras on the stack. *)
Theorem reconstruction_unknown_deform cam cams pipeline_ background deform state df w :
  name deform <> "mlp" -> name deform <> "node" ->
  reconstruction (cam :: cams) pipeline_ background deform state df w
  = (Raise (UnboundLocalError
              (if String.eqb state "mesh" then "time_input2" else "time_input")),
     set_self (set_viewpoint_stack (cam :: cams) (cleaned (self w))) w).
Proof.
  intros Hmlp Hnode.
  unfold reconstruction, bind, clean, modify_self, get_self. simpl.
  unfold reconstruct_view, bind, get_self, lift, time_input_of. simpl.
  destruct (String.eqb state "mesh");
    rewrite (deform_time_input_unbound _ _ _ _ Hmlp Hnode); reflexivity.
Qed.

(** ** When reconstruction completes *)

Lemma stack_uniform l : l <> [] -> uniform l -> stack l = Ok l.
Proof.
  destruct l as [|t tl]; [congruence |]. intros _ Hu. simpl.
  replace (forallb (fun u => bool_decide (shape3 u = shape3 t)) tl) with true;
    [reflexivity |].
  symmetry. apply forallb_forall. intros u Hu'.
  apply bool_decide_eq_true. apply Hu.
  - apply list_elem_of_further, list_elem_of_In, Hu'.
  - apply list_elem_of_here.
Qed.

Lemma stack_Ok_uniform l l' : stack l = Ok l' -> uniform l.
Proof.
  destruct l as [|t tl]; simpl; [discriminate |].
  destruct (forallb _ tl) eqn:E; [|discriminate]. intros _.
  assert (forall u, u ∈ t :: tl -> shape3 u = shape3 t) as Hall.
  { intros u Hu. apply elem_of_cons in Hu as [->|Hu]; [reflexivity |].
    rewrite forallb_forall in E. apply list_elem_of_In in Hu.
    apply E in Hu. apply bool_decide_eq_true in Hu. exact Hu. }
  intros a b Ha Hb. rewrite (Hall a Ha), (Hall b Hb). reflexivity.
Qed.

Lemma reconstruct_view_complete pipeline_ background deform state df cam pkg s w r d a n dn :
  self w = s ->
  rendered (gaussians s) pipeline_ background deform state df cam pkg ->
  rgbmaps s = PyList r -> depthmaps s = PyList d -> alphamaps s = PyList a ->
  normals s = PyList n -> depth_normals s = PyList dn ->
  reconstruct_view pipeline_ background deform state df cam w
  = (Ok tt,
     set_trace (trace w ++ [EvRender cam])
       (set_self
          {| gaussians := gaussians s;
             depthmaps := PyList (d ++ [pkg_depth pkg]);
             alphamaps := PyList (a ++ [pkg_alpha pkg]);
             rgbmaps := PyList (r ++ [rgb_of pkg]);
             normals := PyList (n ++ [normalize (pkg_rend_normal pkg)]);
             depth_normals := PyList (dn ++ [pkg_surf_normal pkg]);
             points := points s;
             viewpoint_stack := viewpoint_stack s |} w)).
Proof.
  intros <- (ti & Hti & -> & Hshape) Hr Hd Ha Hn Hdn.
  unfold reconstruct_view, bind, get_self, lift, call_render, emit, ret. simpl.
  rewrite Hti. unfold cat. rewrite decide_True by exact Hshape.
  unfold append_to, bind, get_self, lift, modify_self, append. simpl.
  rewrite Hr. simpl. rewrite Hd. simpl. rewrite Ha. simpl. rewrite Hn. simpl.
  rewrite Hdn. simpl. reflexivity.
Qed.

Lemma reconstruct_loop_complete pipeline_ background deform state df cams pkgs :
  forall w r d a n dn,
    Forall2 (rendered (gaussians (self w)) pipeline_ background deform state df)
            cams pkgs ->
    rgbmaps (self w) = PyList r -> depthmaps (self w) = PyList d ->
    alphamaps (self w) = PyList a -> normals (self w) = PyList n ->
    depth_normals (self w) = PyList dn ->
    for_each cams (reconstruct_view pipeline_ background deform state df) w
    = (Ok tt,
       set_trace (trace w ++ map EvRender cams)
         (set_self
            {| gaussians := gaussians (self w);
               depthmaps := PyList (d ++ map pkg_depth pkgs);
               alphamaps := PyList (a ++ map pkg_alpha pkgs);
               rgbmaps := PyList (r ++ map rgb_of pkgs);
               normals :=
                 PyList (n ++ map (fun k => normalize (pkg_rend_normal k)) pkgs);
               depth_normals := PyList (dn ++ map pkg_surf_normal pkgs);
               points := points (self w);
               viewpoint_stack := viewpoint_stack (self w) |} w)).
Proof.
  revert pkgs. induction cams as [|cam cams IH]; intros pkgs w r d a n dn Hall;
    inversion Hall as [|? pkg ? pkgs' Hpkg Hrest]; subst; intros Hr Hd Ha Hn Hdn.
  - simpl. unfold ret. rewrite !app_nil_r.
    destruct w as [s h f dd t]; destruct s; simpl in *. subst. reflexivity.
  - simpl. unfold bind.
    erewrite reconstruct_view_complete by eauto.
    erewrite IH; [| exact Hrest | reflexivity..].
    simpl. rewrite <- !app_assoc. reflexivity.
Qed.

Lemma stack_attr_complete get set w l :
  views (get (self w)) = l -> l <> [] -> uniform l ->
  stack_attr get set w = (Ok tt, set_self (set (Stacked l) (self w)) w).
Proof.
  intros Hv Hne Hu. unfold stack_attr, bind, get_self, lift, modify_self. simpl.
  rewrite Hv, (stack_uniform _ Hne Hu). reflexivity.
Qed.

Lemma stack_attr_uniform get set w u w' :
  stack_attr get set w = (Ok u, w') -> uniform (views (get (self w))).
Proof.
  unfold stack_attr, bind, get_self, lift, modify_self. simpl.
  destruct (stack (views (get (self w)))) as [l|e] eqn:E; intros Hs; inversion Hs.
  eapply stack_Ok_uniform, E.
Qed.

(** X9: [reconstruction] completes exactly when there is at least one
    camera, every camera can be rendered (the time input of the deformation
    is defined, and the rendered colour and opacity agree in height and
    width), and the views agree in shape for each of the four buffers that
    are stacked; the normals, kept as a list, need not agree. *)
Theorem reconstruction_completes_iff cams pipeline_ background deform state df w :
  (exists w', reconstruction cams pipeline_ background deform state df w = (Ok tt, w'))
  <->
  (cams <> [] /\
   exists pkgs,
     Forall2 (rendered (gaussians (self w)) pipeline_ background deform state df)
             cams pkgs /\
     uniform (map rgb_of pkgs) /\ uniform (map pkg_depth pkgs) /\
     uniform (map pkg_alpha pkgs) /\ uniform (map pkg_surf_normal pkgs)).
Proof.
  split.
  - intros [w' H]. unfold reconstruction in H. run_ok H.
    unfold clean, modify_self in Hrun, Hrun0. unfold get_self in Hrun1. simplify_eq.
    destruct a2. simpl in Hrun2.
    eapply reconstruct_loop_Ok in Hrun2; try reflexivity.
    destruct Hrun2 as (pkgs & Hall & ->). simpl in Hall.
    pose proof (stack_attr_uniform _ _ _ _ _ Hrun3) as U1.
    apply stack_attr_Ok in Hrun3 as [Hne ->].
    pose proof (stack_attr_uniform _ _ _ _ _ Hrun4) as U2.
    apply stack_attr_Ok in Hrun4 as [_ ->].
    pose proof (stack_attr_uniform _ _ _ _ _ Hrun5) as U3.
    apply stack_attr_Ok in Hrun5 as [_ ->].
    pose proof (stack_attr_uniform _ _ _ _ _ H) as U4.
    simpl in *. split.
    + intros ->. inversion Hall; subst. apply Hne. reflexivity.
    + exists pkgs. repeat split; assumption.
  - intros (Hne & pkgs & Hall & U1 & U2 & U3 & U4).
    assert (pkgs <> []) as Hpk.
    { intros ->. inversion Hall; subst. apply Hne. reflexivity. }
    eexists. unfold reconstruction, bind, clean, modify_self, get_self. simpl.
    erewrite reconstruct_loop_complete; [| exact Hall | reflexivity..].
    simpl.
    erewrite stack_attr_complete;
      [| reflexivity | intros E; apply map_eq_nil in E; contradiction | exact U1].
    erewrite stack_attr_complete;
      [| reflexivity | intros E; apply map_eq_nil in E; contradiction | exact U2].
    erewrite stack_attr_complete;
      [| reflexivity | intros E; apply map_eq_nil in E; contradiction | exact U3].
    erewrite stack_attr_complete;
      [| reflexivity | intros E; apply map_eq_nil in E; contradiction | exact U4].
    reflexivity.
Qed.

(** ** post_process_mesh at the two ends of the threshold *)

Lemma post_process_mesh_returns mesh n w m clusters n_tri areas :
  heap w !! mesh = Some m ->
  cluster_connected_triangles m = (clusters, n_tri, areas) ->
  length clusters = length (triangles m) ->
  Forall (fun c => (0 <= c < Z.of_nat (length n_tri))%Z) clusters ->
  exists l' w', post_process_mesh mesh n w = (Ok l', w').
Proof.
  intros Hm Ecl Hlen Hrange.
  destruct (rmapM_total
              (fun c => rbind (np_index n_tri c) (fun k => Ok (k <? n)%Z)) clusters)
    as [mask Hmask].
  { eapply Forall_impl; [exact Hrange |]. intros c Hc.
    destruct (np_index_in_range n_tri c Hc) as [k Hk]. rewrite Hk. simpl. eauto. }
  pose proof (Forall2_length _ _ _ (rmapM_Ok _ _ _ Hmask)) as Hlm.
  assert (fresh (dom (heap w)) <> mesh) as Hne.
  { intros E. rewrite <- E, fresh_heap_None in Hm. discriminate. }
  eexists _, _.
  unfold post_process_mesh, deepcopy, bind, print, emit, read_mesh, alloc_mesh,
    write_mesh, lift, ret. simpl.
  rewrite Hm. simpl. rewrite lookup_insert_eq, Ecl, Hmask.
  unfold remove_triangles_by_mask.
  rewrite decide_True by congruence. simpl.
  rewrite !lookup_insert_ne by exact Hne. rewrite Hm. simpl.
  rewrite lookup_insert_eq. reflexivity.
Qed.

Lemma np_index_elem {A} (a : list A) i x : np_index a i = Ok x -> x ∈ a.
Proof.
  unfold np_index, index.
  destruct ((0 <=? _)%Z && _); [|discriminate].
  destruct (a !! _) as [y|] eqn:E; intros H; simplify_eq.
  eapply list_elem_of_lookup_2, E.
Qed.

Lemma kept_all m mask :
  length mask = length (triangles m) -> Forall (fun b => b = false) mask ->
  kept_triangles m mask = triangles m.
Proof.
  unfold kept_triangles. generalize (triangles m) as ts.
  induction mask as [|b mask IH]; intros [|t ts] Hlen Hall; simpl in *;
    try discriminate; [reflexivity |].
  inversion Hall; subst. rewrite filter_cons_True by reflexivity.
  simpl. f_equal. apply IH; [lia | assumption].
Qed.

Lemma kept_none m mask :
  Forall (fun b => b = true) mask -> kept_triangles m mask = [].
Proof.
  unfold kept_triangles. generalize (triangles m) as ts.
  induction mask as [|b mask IH]; intros [|t ts] Hall; simpl in *; try reflexivity.
  inversion Hall; subst. rewrite filter_cons_False by (simpl; discriminate).
  apply IH. assumption.
Qed.

(** X10: for a mesh Open3D has clustered, [post_process_mesh] keeps every
    triangle when no cluster is smaller than the threshold (only the
    unreferenced vertices and degenerate triangles go), and removes every
    triangle when all clusters are smaller. *)
Theorem post_process_mesh_extremes mesh n w m clusters n_tri areas :
  heap w !! mesh = Some m ->
  cluster_connected_triangles m = (clusters, n_tri, areas) ->
  length clusters = length (triangles m) ->
  Forall (fun c => (0 <= c < Z.of_nat (length n_tri))%Z) clusters ->
  exists l' w',
    post_process_mesh mesh n w = (Ok l', w') /\
    (Forall (fun k => (n <= k)%Z) n_tri ->
     heap w' !! l'
     = Some (remove_degenerate_triangles (remove_unreferenced_vertices m))) /\
    (Forall (fun k => (k < n)%Z) n_tri ->
     heap w' !! l'
     = Some (remove_degenerate_triangles
               (remove_unreferenced_vertices
                  {| vertices := vertices m; triangles := [];
                     vertex_colors := vertex_colors m |}))).
Proof.
  intros Hm Ecl Hlen Hrange.
  destruct (post_process_mesh_returns mesh n w m clusters n_tri areas Hm Ecl Hlen Hrange)
    as (l' & w' & Hrun).
  exists l', w'. split; [exact Hrun |].
  destruct (post_process_mesh_Ok _ _ _ _ _ Hrun)
    as (m' & cl & nt & ar & mask & Hm' & Ecl' & Hall & Hlm & Hnew & _).
  rewrite Hm in Hm'. simplify_eq. rewrite Ecl in Ecl'. simplify_eq.
  rewrite Hnew. split; intros Hsizes; do 3 f_equal.
  - rewrite kept_all; [destruct m'; reflexivity | exact Hlm |].
    eapply Forall2_Forall_r; [exact Hall |]. apply Forall_forall.
    intros c _ b (k & Hk & ->). apply np_index_elem in Hk.
    rewrite Forall_forall in Hsizes. apply Hsizes in Hk. lia.
  - rewrite kept_none; [reflexivity |].
    eapply Forall2_Forall_r; [exact Hall |]. apply Forall_forall.
    intros c _ b (k & Hk & ->). apply np_index_elem in Hk.
    rewrite Forall_forall in Hsizes. apply Hsizes in Hk. lia.
Qed.

(** ** The export loop and the script *)

Lemma always_raises_bind_l {A B} (c : M A) (k : A -> M B) :
  always_raises c -> always_raises (bind c k).
Proof.
  intros Hc w. destruct (Hc w) as [e He]. unfold bind.
  destruct (c w) as [[a|e'] w1]; simpl in *; [discriminate | eauto].
Qed.

Lemma always_raises_bind_r {A B} (c : M A) (k : A -> M B) :
  (forall a, always_raises (k a)) -> always_raises (bind c k).
Proof.
  intros Hk w. unfold bind. destruct (c w) as [[a|e] w1]; simpl; [apply Hk | eauto].
Qed.

Lemma frame_images_raises args scene train_dir images_save_path meshshape_save_path
    i mesh :
  always_raises (frame_images args scene train_dir images_save_path
                              meshshape_save_path i mesh).
Proof. intros w. eexists. reflexivity. Qed.

Lemma mesh_frame_raises args scene background deform train_dir images_save_path
    meshshape_save_path i :
  always_raises (mesh_frame args scene background deform train_dir images_save_path
                            meshshape_save_path i).
Proof.
  unfold mesh_frame. apply always_raises_bind_r. intros mesh.
  apply frame_images_raises.
Qed.

Lemma render_poses_length : length render_poses = 100.
Proof. reflexivity. Qed.

(** X12: without [--skip_mesh] the script never runs to its end: whatever
    the other arguments and the world, it raises an exception (a round of
    the export loop cannot complete). *)
Theorem main_without_skip_mesh_raises parsed :
  skip_mesh parsed = false -> always_raises (main parsed).
Proof.
  intros Hskip. unfold main.
  do 2 (apply always_raises_bind_r; intros ?).
  destruct (load_scene _ _ _) as [scene gaussians_].
  do 8 (apply always_raises_bind_r; intros ?).
  apply always_raises_bind_l.
  change (skip_mesh (set_depth_trunc 6 parsed)) with (skip_mesh parsed).
  rewrite Hskip, render_poses_length.
  apply always_raises_bind_l. apply mesh_frame_raises.
Qed.

(** X13: the values of [--num_cluster] and [--mesh_res] have no effect on a
    round of the export loop: the calls they are passed to raise whatever
    the values are. *)
Theorem mesh_frame_ignores_num_cluster_and_mesh_res args v r scene background deform
    train_dir images_save_path meshshape_save_path i w :
  mesh_frame (set_mesh_res r (set_num_cluster v args)) scene background deform
             train_dir images_save_path meshshape_save_path i w
  = mesh_frame args scene background deform train_dir images_save_path
               meshshape_save_path i w.
Proof.
  unfold mesh_frame, bind, frame_mesh. simpl.
  destruct (unbounded args); reflexivity.
Qed.

(** X14: the script opens [transforms_test.json] of the source directory
    although it never uses its content: when the file is missing, a run that
    skips the image exports raises [FileNotFoundError], also under
    [--skip_mesh]. *)
Theorem main_needs_transforms_test parsed w :
  skip_train parsed = true -> skip_test parsed = true -> render_path parsed = false ->
  fs w !! path_join (source_path parsed) "transforms_test.json" = None ->
  fst (main parsed w)
  = Raise (FileNotFoundError (path_join (source_path parsed) "transforms_test.json")).
Proof.
  intros Htrain Htest Hpath Hfile. unfold main.
  destruct (load_scene _ _ _) as [scene gaussians_].
  unfold bind, print, emit, modify_self, open_read. simpl.
  rewrite Htrain, Htest, Hpath. simpl. rewrite Hfile. reflexivity.
Qed.

(** ** File names and the video *)

Lemma zeros_string_of_uint k d :
  (zeros k ++ NilEmpty.string_of_uint d)%string
  = NilEmpty.string_of_uint (Nat.iter k Decimal.D0 d).
Proof. induction k as [|k IH]; simpl; [reflexivity | rewrite <- IH; reflexivity]. Qed.

Lemma to_uint_normal n : Decimal.unorm (Nat.to_uint n) = Nat.to_uint n.
Proof.
  pose proof (DecimalNat.Unsigned.to_of (Nat.to_uint n)) as H.
  rewrite DecimalNat.Unsigned.of_to in H. symmetry. exact H.
Qed.

Lemma to_uint_nonnil n : Nat.to_uint n <> Decimal.Nil.
Proof. rewrite <- to_uint_normal. apply DecimalFacts.unorm_nonnil. Qed.

Lemma str_NilEmpty n : str n = NilEmpty.string_of_uint (Nat.to_uint n).
Proof.
  unfold str, NilZero.string_of_uint.
  pose proof (to_uint_nonnil n). destruct (Nat.to_uint n); congruence.
Qed.

Lemma zfill_str_inj width a b : zfill width (str a) = zfill width (str b) -> a = b.
Proof.
  unfold zfill. rewrite !str_NilEmpty, !zeros_string_of_uint. intros H.
  apply (f_equal NilEmpty.uint_of_string) in H. rewrite !NilEmpty.usu in H.
  injection H as H. apply (f_equal Decimal.unorm) in H.
  rewrite !DecimalFacts.unorm_iter_D0, !to_uint_normal in H.
  apply DecimalNat.Unsigned.to_uint_inj, H.
Qed.

Lemma string_app_inv_l (p a b : string) : (p ++ a = p ++ b)%string -> a = b.
Proof. induction p as [|c p IH]; simpl; intros H; [exact H | injection H as H; auto]. Qed.

Lemma string_length_app (a b : string) :
  String.length (a ++ b) = String.length a + String.length b.
Proof. induction a as [|c a IH]; simpl; [reflexivity | rewrite <- IH; reflexivity]. Qed.

Lemma string_app_inv_r (s a b : string) : (a ++ s = b ++ s)%string -> a = b.
Proof.
  intros H.
  assert (String.length a = String.length b) as Hlen.
  { apply (f_equal String.length) in H. rewrite !string_length_app in H. lia. }
  revert b H Hlen. induction a as [|c a IH]; intros [|c' b] H Hlen; simpl in *;
    try discriminate; [reflexivity |].
  injection H as -> H. f_equal. apply IH; [exact H | lia].
Qed.

(** X15: the names of the files of two views or two frames differ whenever
    the indices differ: the zero-padded decimal index is injective, so no
    round overwrites the image or the mesh name of another. *)
Theorem frame_names_distinct i j :
  (fmt05 i = fmt05 j -> i = j) /\
  ((zfill 5 (str i) ++ ".png")%string = (zfill 5 (str j) ++ ".png")%string -> i = j) /\
  (("frame_" ++ str i ++ ".ply")%string = ("frame_" ++ str j ++ ".ply")%string -> i = j).
Proof.
  split; [apply zfill_str_inj |]. split.
  - intros H. apply string_app_inv_r in H. apply zfill_str_inj in H. exact H.
  - intros H. apply string_app_inv_l in H. apply string_app_inv_r in H.
    apply (zfill_str_inj 0). unfold zfill. simpl. exact H.
Qed.

Lemma rmapM_first_error {A B} (f : A -> result B) l1 x l2 e :
  Forall (fun y => exists b, f y = Ok b) l1 -> f x = Raise e ->
  rmapM f (l1 ++ x :: l2) = Raise e.
Proof.
  intros Hl1 Hx. induction Hl1 as [|y l1 [b Hb] _ IH]; simpl.
  - rewrite Hx. reflexivity.
  - rewrite Hb. simpl. rewrite IH. reflexivity.
Qed.

(** X16: when the directory has m entries but the image of some index below
    m is missing, the video step raises [FileNotFoundError] for the first
    missing index and opens no writer: the world is as it was.  So an entry
    of the directory that is not a frame (which makes m too large) stops the
    video. *)
Theorem assemble_video_missing_frame dir w k :
  k < length (listdir dir w) ->
  fs w !! (dir ++ "/" ++ zfill 5 (str k) ++ ".png")%string = None ->
  (forall j, j < k ->
     exists f image,
       fs w !! (dir ++ "/" ++ zfill 5 (str j) ++ ".png")%string = Some f /\
       imageio_imread f = Ok image) ->
  assemble_video dir w
  = (Raise (FileNotFoundError (dir ++ "/" ++ zfill 5 (str k) ++ ".png")), w).
Proof.
  intros Hk Hmissing Hbefore.
  unfold assemble_video, bind, count_entries. rewrite read_images_spec.
  replace (seq 0 (length (listdir dir w)))
    with (seq 0 k ++ k :: seq (S k) (length (listdir dir w) - S k)).
  - erewrite rmapM_first_error; [reflexivity | |].
    + apply Forall_forall. intros j Hj. apply list_elem_of_In, in_seq in Hj.
      destruct (Hbefore j) as (f & image & Hf & Himg); [lia |].
      exists image. unfold frame_image. rewrite Hf. exact Himg.
    + unfold frame_image. rewrite Hmissing. reflexivity.
  - replace (length (listdir dir w)) with (k + S (length (listdir dir w) - S k)) at 2 by lia.
    rewrite seq_app. reflexivity.
Qed.

(** ** Writing a frame and finding it again *)


Lemma string_app_assoc (a b c : string) : ((a ++ b) ++ c = a ++ (b ++ c))%string.
Proof.
  induction a as [|x a IH]; [reflexivity |].
  change (String x ((a ++ b) ++ c) = String x (a ++ (b ++ c)))%string.
  f_equal. exact IH.
Qed.



Lemma has_slash_app a b : has_slash (a ++ b) = has_slash a || has_slash b.
Proof.
  induction a as [|c a IH]; [reflexivity |].
  change (has_slash (String c (a ++ b)) = has_slash (String c a) || has_slash b).
  simpl. rewrite IH, orb_assoc. reflexivity.
Qed.

Lemma has_slash_digits d : has_slash (NilEmpty.string_of_uint d) = false.
Proof. induction d; simpl; try reflexivity; exact IHd. Qed.

Lemma has_slash_zeros k : has_slash (zeros k) = false.
Proof. induction k as [|k IH]; simpl; [reflexivity | exact IH]. Qed.

Lemma frame_file_name_plain i :
  (zfill 5 (str i) ++ ".png")%string <> "" /\
  has_slash (zfill 5 (str i) ++ ".png") = false.
Proof.
  split.
  - intros E. apply (f_equal String.length) in E.
    rewrite string_length_app in E. simpl in E. lia.
  - unfold zfill. rewrite !has_slash_app, has_slash_zeros, str_NilEmpty, has_slash_digits.
    reflexivity.
Qed.


(** ** export_image *)

Lemma only_writes_bind {A B} (c : M A) (k : A -> M B) :
  only_writes c -> (forall a, only_writes (k a)) -> only_writes (bind c k).
Proof.
  intros Hc Hk w. unfold bind. specialize (Hc w).
  destruct (c w) as [[a|e] w1]; simpl in *; [|exact Hc].
  destruct Hc as (H1 & H2 & H3 & H4). destruct (Hk a w1) as (K1 & K2 & K3 & K4).
  rewrite K1, K2, K3. repeat split; try assumption. set_solver.
Qed.

Lemma only_writes_ret {A} (a : A) : only_writes (ret a).
Proof. intros w. simpl. repeat split; set_solver. Qed.

Lemma only_writes_lift {A} (r : result A) : only_writes (lift r).
Proof. intros w. simpl. repeat split; set_solver. Qed.

Lemma only_writes_get_self : only_writes get_self.
Proof. intros w. simpl. repeat split; set_solver. Qed.

Lemma only_writes_write_file p f : only_writes (write_file p f).
Proof. intros w. simpl. repeat split; set_solver. Qed.

Lemma only_writes_makedirs p : only_writes (makedirs p).
Proof. intros w. simpl. repeat split; set_solver. Qed.

Create HintDb only_writes.

#[local] Hint Resolve only_writes_ret only_writes_lift only_writes_get_self
  only_writes_write_file only_writes_makedirs : only_writes.

Ltac only_writes_steps :=
  repeat first
    [ solve [auto with only_writes nocore]
    | apply only_writes_bind; [| intros ?] ].

Lemma only_writes_export_views rp gp vp cams :
  forall idx, only_writes (export_views rp gp vp idx cams).
Proof.
  induction cams as [|cam cams IH]; intros idx; simpl.
  - apply only_writes_ret.
  - apply only_writes_bind; [| intros _; apply IH].
    unfold export_view. only_writes_steps.
Qed.

(** X18: whether it completes or raises, [export_image] only writes files
    and makes directories: the extractor with its buffers, the mesh objects
    and the trace are as they were, no directory is removed, and the three
    directories [renders], [vis] and [gt] exist afterwards. *)
Theorem export_image_only_writes path w :
  self (snd (export_image path w)) = self w /\
  heap (snd (export_image path w)) = heap w /\
  trace (snd (export_image path w)) = trace w /\
  dirs w ⊆ dirs (snd (export_image path w)) /\
  path_join path "renders" ∈ dirs (snd (export_image path w)) /\
  path_join path "vis" ∈ dirs (snd (export_image path w)) /\
  path_join path "gt" ∈ dirs (snd (export_image path w)).
Proof.
  unfold export_image, bind, makedirs, get_self. simpl.
  match goal with
  | |- context [export_views ?rp ?gp ?vp 0 ?cams ?w0] =>
      destruct (only_writes_export_views rp gp vp cams 0 w0) as (H1 & H2 & H3 & H4);
      destruct (export_views rp gp vp 0 cams w0) as [[u|e] w1]
  end; simpl in *; rewrite H1, H2, H3; repeat split; set_solver.
Qed.

Lemma writes_within_bind {A B} P (c : M A) (k : A -> M B) :
  writes_within P c -> (forall a, writes_within P (k a)) -> writes_within P (bind c k).
Proof.
  intros Hc Hk w p Hp. unfold bind. specialize (Hc w p Hp).
  destruct (c w) as [[a|e] w1]; simpl in *; [|exact Hc].
  rewrite (Hk a w1 p Hp). exact Hc.
Qed.

Lemma writes_within_ret {A} P (a : A) : writes_within P (ret a).
Proof. intros w p _. reflexivity. Qed.

Lemma writes_within_lift {A} P (r : result A) : writes_within P (lift r).
Proof. intros w p _. reflexivity. Qed.

Lemma writes_within_get_self P : writes_within P get_self.
Proof. intros w p _. reflexivity. Qed.

Lemma writes_within_makedirs P d : writes_within P (makedirs d).
Proof. intros w p _. reflexivity. Qed.

Lemma writes_within_write_file (P : string -> Prop) q f :
  P q -> writes_within P (write_file q f).
Proof.
  intros Hq w p Hp. simpl. apply lookup_insert_ne. intros ->. contradiction.
Qed.

Lemma writes_within_weaken {A} (P Q : string -> Prop) (c : M A) :
  (forall p, P p -> Q p) -> writes_within P c -> writes_within Q c.
Proof. intros HPQ Hc w p Hp. apply Hc. intros HP. apply Hp, HPQ, HP. Qed.

Lemma export_view_writes_within path idx cam :
  writes_within (fun p => p ∈ view_files path idx)
    (export_view (path_join path "renders") (path_join path "gt")
                 (path_join path "vis") idx cam).
Proof.
  unfold export_view.
  repeat first
    [ apply writes_within_ret | apply writes_within_lift | apply writes_within_get_self
    | apply writes_within_write_file;
        unfold view_files, gt_file, render_file, vis_files; set_solver
    | apply writes_within_bind; [| intros ?] ].
Qed.

Lemma export_views_writes_within path cams :
  forall idx,
    writes_within (fun p => exists j, idx <= j /\ p ∈ view_files path j)
      (export_views (path_join path "renders") (path_join path "gt")
                    (path_join path "vis") idx cams).
Proof.
  induction cams as [|cam cams IH]; intros idx; simpl.
  - apply writes_within_ret.
  - apply writes_within_bind.
    + eapply writes_within_weaken; [| apply export_view_writes_within].
      intros p Hp. exists idx. split; [lia | exact Hp].
    + intros _. eapply writes_within_weaken; [| apply IH].
      intros p (j & Hj & Hp). exists j. split; [lia | exact Hp].
Qed.

(** *** The paths of the views do not collide *)

Lemma path_join_plain a b :
  starts_with_slash b = false -> path_join a b = (dir_prefix a ++ b)%string.
Proof.
  intros Hb. unfold path_join, dir_prefix. rewrite Hb.
  destruct (bool_decide (a = "") || ends_with_slash a); [reflexivity |].
  symmetry. apply string_app_assoc.
Qed.

Lemma ends_with_slash_app a b :
  b <> "" -> ends_with_slash (a ++ b) = ends_with_slash b.
Proof.
  intros Hb. induction a as [|c a IH]; [reflexivity |].
  change (ends_with_slash (String c (a ++ b)) = ends_with_slash b).
  simpl. destruct (a ++ b)%string eqn:E; [|exact IH].
  destruct a; simpl in E; [contradiction | discriminate].
Qed.

Lemma string_app_nonempty a b : b <> "" -> (a ++ b)%string <> "".
Proof. intros Hb. destruct a; simpl; [exact Hb | discriminate]. Qed.

Lemma export_path path sub name :
  sub <> "" -> ends_with_slash sub = false -> starts_with_slash sub = false ->
  starts_with_slash name = false ->
  path_join (path_join path sub) name = (dir_prefix path ++ sub ++ "/" ++ name)%string.
Proof.
  intros Hne Hend Hstart Hname.
  rewrite (path_join_plain _ _ Hname), (path_join_plain _ _ Hstart).
  unfold dir_prefix at 1.
  rewrite bool_decide_eq_false_2 by (apply string_app_nonempty, Hne).
  rewrite (ends_with_slash_app _ _ Hne), Hend. simpl.
  rewrite !string_app_assoc. reflexivity.
Qed.

Lemma starts_with_slash_plain s : has_slash s = false -> starts_with_slash s = false.
Proof.
  destruct s as [|c s]; [reflexivity |]. simpl.
  destruct (Ascii.eqb_spec c "/"); [discriminate |]. intros _.
  destruct c as [[] [] [] [] [] [] [] []]; try reflexivity. contradiction.
Qed.

Lemma fmt05_png_plain idx : starts_with_slash (fmt05 idx ++ ".png") = false.
Proof. apply starts_with_slash_plain, frame_file_name_plain. Qed.

Lemma gt_file_canonical path idx :
  gt_file path idx = (dir_prefix path ++ "gt" ++ "/" ++ fmt05 idx ++ ".png")%string.
Proof.
  unfold gt_file. apply export_path; try reflexivity; [discriminate | apply fmt05_png_plain].
Qed.

Lemma render_file_canonical path idx :
  render_file path idx
  = (dir_prefix path ++ "renders" ++ "/" ++ fmt05 idx ++ ".png")%string.
Proof.
  unfold render_file. apply export_path; try reflexivity;
    [discriminate | apply fmt05_png_plain].
Qed.

Lemma vis_files_canonical path idx p :
  p ∈ vis_files path idx ->
  exists name, p = (dir_prefix path ++ "vis" ++ "/" ++ name)%string.
Proof.
  unfold vis_files. intros Hp.
  repeat (apply elem_of_cons in Hp as [->|Hp];
          [eexists; apply export_path; try reflexivity; discriminate |]).
  apply elem_of_nil in Hp. contradiction.
Qed.

Lemma render_file_inj path i j : render_file path i = render_file path j -> i = j.
Proof.
  rewrite !render_file_canonical. intros H.
  do 3 apply string_app_inv_l in H. apply string_app_inv_r in H.
  apply zfill_str_inj in H. exact H.
Qed.

Lemma gt_file_inj path i j : gt_file path i = gt_file path j -> i = j.
Proof.
  rewrite !gt_file_canonical. intros H.
  do 3 apply string_app_inv_l in H. apply string_app_inv_r in H.
  apply zfill_str_inj in H. exact H.
Qed.

Lemma render_not_gt path i j : render_file path i <> gt_file path j.
Proof.
  rewrite render_file_canonical, gt_file_canonical. intros H.
  apply string_app_inv_l in H. discriminate H.
Qed.

Lemma render_not_vis path i j : render_file path i ∉ vis_files path j.
Proof.
  intros Hin. apply vis_files_canonical in Hin as [name H].
  rewrite render_file_canonical in H. apply string_app_inv_l in H. discriminate H.
Qed.

Lemma gt_not_vis path i j : gt_file path i ∉ vis_files path j.
Proof.
  intros Hin. apply vis_files_canonical in Hin as [name H].
  rewrite gt_file_canonical in H. apply string_app_inv_l in H. discriminate H.
Qed.

Lemma render_file_elsewhere path i j : i <> j -> render_file path i ∉ view_files path j.
Proof.
  intros Hij Hin. unfold view_files in Hin.
  apply elem_of_cons in Hin as [E|Hin]; [exact (render_not_gt _ _ _ E) |].
  apply elem_of_cons in Hin as [E|Hin]; [apply render_file_inj in E; contradiction |].
  exact (render_not_vis _ _ _ Hin).
Qed.

Lemma gt_file_elsewhere path i j : i <> j -> gt_file path i ∉ view_files path j.
Proof.
  intros Hij Hin. unfold view_files in Hin.
  apply elem_of_cons in Hin as [E|Hin]; [apply gt_file_inj in E; contradiction |].
  apply elem_of_cons in Hin as [E|Hin]; [symmetry in E; exact (render_not_gt _ _ _ E) |].
  exact (gt_not_vis _ _ _ Hin).
Qed.

Lemma only_writes_export_view rp gp vp idx cam :
  only_writes (export_view rp gp vp idx cam).
Proof. unfold export_view. only_writes_steps. Qed.

Lemma export_view_Ok path idx cam w w' :
  export_view (path_join path "renders") (path_join path "gt")
              (path_join path "vis") idx cam w = (Ok tt, w') ->
  exists rgb,
    views (rgbmaps (self w)) !! idx = Some rgb /\
    fs w' !! render_file path idx
    = Some (Written save_img_u8 (Arr3 (permute_1_2_0 rgb))) /\
    fs w' !! gt_file path idx
    = Some (Written save_img_u8
              (Arr3 (permute_1_2_0 (take 3 (original_image cam))))).
Proof.
  intros H. unfold export_view in H.
  apply bind_Ok in H as (s & w0 & Hs & H). inversion Hs; subst s w0; clear Hs.
  apply bind_Ok in H as ([] & w1 & Hgt & H).
  apply bind_Ok in H as (rgb & w2 & Hrgb & H).
  apply lift_Ok in Hrgb as [Hrgb ->].
  apply bind_Ok in H as ([] & w3 & Hrender & H).
  unfold write_file in Hgt, Hrender.
  inversion Hgt; subst w1; clear Hgt. inversion Hrender; subst w3; clear Hrender.
  exists rgb. split.
  { unfold index in Hrgb. simpl in Hrgb.
    destruct (views (rgbmaps (self w)) !! idx); [congruence | discriminate]. }
  assert (Hrest : forall p, p ∉ vis_files path idx ->
            fs w' !! p
            = (<[render_file path idx :=
                   Written save_img_u8 (Arr3 (permute_1_2_0 rgb))]>
                 (<[gt_file path idx :=
                      Written save_img_u8
                        (Arr3 (permute_1_2_0 (take 3 (original_image cam))))]>
                    (fs w))) !! p).
  { intros p Hp.
    match type of H with
    | ?c ?w0 = _ =>
        assert (Hw : writes_within (fun q => q ∈ vis_files path idx) c)
    end.
    { repeat first
        [ apply writes_within_ret | apply writes_within_lift
        | apply writes_within_write_file; unfold vis_files; set_solver
        | apply writes_within_bind; [| intros ?] ]. }
    match type of H with
    | ?c ?w0 = _ => specialize (Hw w0 p Hp); rewrite H in Hw
    end.
    exact Hw. }
  split.
  - rewrite (Hrest _ (render_not_vis _ _ _)). apply lookup_insert_eq.
  - rewrite (Hrest _ (gt_not_vis _ _ _)).
    rewrite lookup_insert_ne by apply render_not_gt.
    apply lookup_insert_eq.
Qed.

Lemma export_views_Ok path cams :
  forall idx w w',
    export_views (path_join path "renders") (path_join path "gt")
                 (path_join path "vis") idx cams w = (Ok tt, w') ->
    forall k cam,
      cams !! k = Some cam ->
      exists rgb,
        views (rgbmaps (self w)) !! (idx + k) = Some rgb /\
        fs w' !! render_file path (idx + k)
        = Some (Written save_img_u8 (Arr3 (permute_1_2_0 rgb))) /\
        fs w' !! gt_file path (idx + k)
        = Some (Written save_img_u8
                  (Arr3 (permute_1_2_0 (take 3 (original_image cam))))).
Proof.
  induction cams as [|c cams IH]; intros idx w w' H k cam Hk; [destruct k; discriminate |].
  simpl in H. apply bind_Ok in H as ([] & w1 & Hview & Hrest).
  destruct k as [|k].
  - simpl in Hk. injection Hk as ->. rewrite Nat.add_0_r.
    destruct (export_view_Ok _ _ _ _ _ Hview) as (rgb & Hrgb & Hr & Hg).
    exists rgb. split; [exact Hrgb |].
    pose proof (export_views_writes_within path cams (S idx) w1) as Hw.
    rewrite Hrest in Hw. simpl in Hw.
    split.
    + rewrite Hw; [exact Hr |]. intros (j & Hj & Hin).
      revert Hin. apply render_file_elsewhere. lia.
    + rewrite Hw; [exact Hg |]. intros (j & Hj & Hin).
      revert Hin. apply gt_file_elsewhere. lia.
  - simpl in Hk.
    destruct (IH (S idx) w1 w' Hrest k cam Hk) as (rgb & Hrgb & Hr & Hg).
    replace (idx + S k) with (S idx + k) by lia.
    exists rgb. split; [| split; assumption].
    destruct (only_writes_export_view (path_join path "renders")
                (path_join path "gt") (path_join path "vis") idx c w) as (Hself & _).
    rewrite Hview in Hself. simpl in Hself. rewrite <- Hself. exact Hrgb.
Qed.

(** X19: when [export_image] completes, every view [idx] of the viewpoint
    stack has its colour map in [renders/<idx as five digits>.png] and the
    first three channels of its camera's ground-truth image in
    [gt/<idx as five digits>.png], both with the channel axis moved last:
    no later view overwrites an earlier one. *)
Theorem export_image_writes_each_view path w w' idx cam :
  export_image path w = (Ok tt, w') ->
  viewpoint_stack (self w) !! idx = Some cam ->
  exists rgb,
    views (rgbmaps (self w)) !! idx = Some rgb /\
    fs w' !! render_file path idx
    = Some (Written save_img_u8 (Arr3 (permute_1_2_0 rgb))) /\
    fs w' !! gt_file path idx
    = Some (Written save_img_u8
              (Arr3 (permute_1_2_0 (take 3 (original_image cam))))).
Proof.
  intros H Hcam. unfold export_image in H.
  apply bind_Ok in H as ([] & w1 & H1 & H).
  apply bind_Ok in H as ([] & w2 & H2 & H).
  apply bind_Ok in H as ([] & w3 & H3 & H).
  apply bind_Ok in H as (s & w4 & Hs & H).
  unfold makedirs in H1, H2, H3.
  inversion H1; subst w1; clear H1. inversion H2; subst w2; clear H2.
  inversion H3; subst w3; clear H3. inversion Hs; subst s w4; clear Hs.
  simpl in H.
  exact (export_views_Ok path _ 0 _ _ H idx cam Hcam).
Qed.


End MoreProperties.

(** ** clean_mesh *)

Section CleanMeshProperties.

Context {ext : Externals} {cext : CleanExternals}.

(** X11: without a cluster threshold, [clean_mesh] cleans the mesh object it
    is given in place (duplicated vertices and triangles, degenerate
    triangles, unreferenced vertices) whatever the edge threshold; with
    [fill_holes=False] it returns that very object, and with
    [fill_holes=True], the default, it then stops with [NameError]:
    [o3d_to_trimesh] is bound nowhere in the script. *)
Theorem clean_mesh_in_place mesh edge_threshold n fill_holes w m :
  heap w !! mesh = Some m ->
  (n <= 0)%Z ->
  clean_mesh mesh edge_threshold n fill_holes w
  = (Ok (if fill_holes
         then RaisesNameError "name 'o3d_to_trimesh' is not defined"
         else Returns mesh),
     set_heap
       (<[mesh := remove_unreferenced_vertices
                    (remove_degenerate_triangles
                       (remove_duplicated_triangles
                          (remove_duplicated_vertices m)))]> (heap w)) w).
Proof.
  intros Hm Hn.
  unfold clean_mesh, update_mesh, bind, read_mesh, write_mesh. simpl.
  rewrite Hm. simpl. repeat (rewrite lookup_insert_eq; simpl).
  destruct (Z.ltb_spec 0 n) as [Hlt|_]; [lia |].
  unfold ret. simpl. repeat (rewrite lookup_insert_eq; simpl).
  destruct fill_holes; simpl; rewrite !insert_insert_eq; destruct w; reflexivity.
Qed.

End CleanMeshProperties.

(** ** The theorems at work on the small scene *)

Lemma reconstruction_accumulates_witness :
  reconstruction (ext := small_externals) two_cameras tt [0; 0; 0]%Q mlp_deform
                 "mesh" true empty_world
  = (Ok tt, reconstructed_world) /\
  viewpoint_stack (self reconstructed_world) = two_cameras /\
  trace reconstructed_world = map EvRender two_cameras /\
  length (views (rgbmaps (self reconstructed_world))) = 2.
Proof.
  assert (reconstruction (ext := small_externals) two_cameras tt [0; 0; 0]%Q
                         mlp_deform "mesh" true empty_world
          = (Ok tt, reconstructed_world)) as Hrun by (vm_compute; reflexivity).
  split; [exact Hrun |].
  destruct (reconstruction_accumulates (ext := small_externals) _ _ _ _ _ _ _ _ Hrun)
    as (pkgs & _ & Htrace & Hvs & _ & _ & _ & _ & _ & _ & Hlen & _).
  split; [exact Hvs |]. split; [exact Htrace | exact Hlen].
Defined.





Lemma post_process_mesh_filters_witness :
  heap mesh_world !! 1%positive = Some three_triangles /\
  cluster_connected_triangles (Externals := small_externals) three_triangles
  = ([0; 0; 1]%Z, [2; 1]%Z, [0; 0]%Q) /\
  length [0; 0; 1]%Z = length (triangles three_triangles) /\
  Forall (fun c => (0 <= c < Z.of_nat (length [2; 1]%Z))%Z) [0; 0; 1]%Z /\
  exists l' w' mask,
    post_process_mesh (ext := small_externals) 1%positive 2 mesh_world = (Ok l', w') /\
    Forall2 (small_cluster [2; 1]%Z 2) [0; 0; 1]%Z mask /\
    heap w' !! l'
    = Some (remove_degenerate_triangles (Externals := small_externals)
              (remove_unreferenced_vertices (Externals := small_externals)
                 {| vertices := vertices three_triangles;
                    triangles := kept_triangles three_triangles mask;
                    vertex_colors := vertex_colors three_triangles |})) /\
    heap mesh_world !! l' = None /\
    heap w' !! 1%positive = Some three_triangles /\
    forall l, l <> l' -> heap w' !! l = heap mesh_world !! l.
Proof.
  assert (heap mesh_world !! 1%positive = Some three_triangles) as H1
      by (vm_compute; reflexivity).
  assert (cluster_connected_triangles (Externals := small_externals) three_triangles
          = ([0; 0; 1]%Z, [2; 1]%Z, [0; 0]%Q)) as H2 by reflexivity.
  assert (length [0; 0; 1]%Z = length (triangles three_triangles)) as H3 by reflexivity.
  assert (Forall (fun c => (0 <= c < Z.of_nat (length [2; 1]%Z))%Z) [0; 0; 1]%Z) as H4
      by (repeat constructor; simpl; lia).
  repeat (split; [assumption |]).
  exact (post_process_mesh_filters (ext := small_externals) 1%positive 2 mesh_world
           three_triangles _ _ _ H1 H2 H3 H4).
Defined.

Lemma assemble_video_frames_witness :
  Forall2 (fun k image =>
             exists f,
               fs frames_world !! ("out/mesh_shape" ++ "/" ++ zfill 5 (str k) ++ ".png")%string
               = Some f /\
               imageio_imread (Externals := small_externals) f = Ok image)
          (seq 0 (length (listdir "out/mesh_shape" frames_world)))
          [Arr3 [[[1%Q]]]; Arr3 [[[2%Q]]]] /\
  assemble_video (ext := small_externals) "out/mesh_shape" frames_world
  = (Ok tt,
     set_trace [EvGetWriter "output_video.mp4" 25;
                EvAppendData (Arr3 [[[1%Q]]]); EvAppendData (Arr3 [[[2%Q]]]);
                EvCloseWriter] frames_world).
Proof.
  assert (Forall2 (fun k image =>
             exists f,
               fs frames_world !! ("out/mesh_shape" ++ "/" ++ zfill 5 (str k) ++ ".png")%string
               = Some f /\
               imageio_imread (Externals := small_externals) f = Ok image)
          (seq 0 (length (listdir "out/mesh_shape" frames_world)))
          [Arr3 [[[1%Q]]]; Arr3 [[[2%Q]]]]) as Hall.
  { replace (length (listdir "out/mesh_shape" frames_world)) with 2%nat
      by (vm_compute; reflexivity).
    repeat constructor.
    - exists (Written cv2_imwrite (Arr3 [[[1%Q]]])). split; vm_compute; reflexivity.
    - exists (Written cv2_imwrite (Arr3 [[[2%Q]]])). split; vm_compute; reflexivity. }
  split; [exact Hall |].
  exact (assemble_video_frames (ext := small_externals) _ _ _ Hall).
Defined.

(** ** Runs of the model *)

Example zfill_pads : zfill 5 (str 42) = "00042" /\ zfill 5 (str 0) = "00000".
Proof. split; reflexivity. Qed.

Example path_join_inserts_slash :
  path_join (path_join "out" "train") "ours_3" = "out/train/ours_3".
Proof. reflexivity. Qed.

Example to_uint8_scales :
  to_uint8 (1 * 255) = 255%Z /\ to_uint8 ((1 # 4) * 255) = 63%Z /\ to_uint8 0 = 0%Z.
Proof. repeat split; reflexivity. Qed.

Example permute_moves_channels_last :
  permute_1_2_0 [[[1; 2]; [3; 4]]; [[5; 6]; [7; 8]]; [[9; 10]; [11; 12]]]%Q
  = [[[1; 5; 9]; [2; 6; 10]]; [[3; 7; 11]; [4; 8; 12]]]%Q.
Proof. reflexivity. Qed.

(** The keyword the function does declare is accepted, and its default is
    used when it is left out. *)
Example post_process_mesh_accepts_its_keyword :
  bind_arguments "post_process_mesh" post_process_mesh_signature
                 [VMesh 1] [("num_triangles_to_keep", VInt 5)]
  = Ok [("mesh", VMesh 1); ("num_triangles_to_keep", VInt 5)] /\
  bind_arguments "post_process_mesh" post_process_mesh_signature [VMesh 1] []
  = Ok [("mesh", VMesh 1); ("num_triangles_to_keep", VInt 100)].
Proof. split; reflexivity. Qed.

(** The bounded extraction is found on the class and runs. *)
Example extract_mesh_bounded_is_callable :
  fst (call_mesh_method (ext := small_externals) "extract_mesh_bounded"
         [("voxel_size", VFloat (4 # 1000)); ("sdf_trunc", VFloat (2 # 100));
          ("depth_trunc", VFloat 6)] reconstructed_world)
  = Ok 1%positive.
Proof. vm_compute. reflexivity. Qed.

(** The script stops in the first round of the export loop, with the depth
    truncation 6 printed by the extraction and no file written. *)
Example main_stops_in_first_frame :
  fst (main (ext := small_externals) mesh_only_args dataset_world)
  = Raise (TypeError
             "post_process_mesh() got an unexpected keyword argument 'cluster_to_keep'") /\
  last (trace (snd (main (ext := small_externals) mesh_only_args dataset_world)))
  = Some (EvPrint "depth_truc: {}" [VFloat 6]) /\
  fs (snd (main (ext := small_externals) mesh_only_args dataset_world))
  = fs dataset_world.
Proof. repeat split; vm_compute; reflexivity. Qed.

Example main_unbounded_stops_in_first_frame :
  fst (main (ext := small_externals) unbounded_args dataset_world)
  = Raise (AttributeError
             "'GaussianExtractor' object has no attribute 'extract_mesh_unbounded'").
Proof. vm_compute. reflexivity. Qed.

(** With [--skip_mesh] the script reaches the video. *)
Example main_skip_mesh_writes_video :
  fst (main (ext := small_externals) video_only_args dataset_world) = Ok tt /\
  trace (snd (main (ext := small_externals) video_only_args dataset_world))
  = [EvPrint "{}" [VBool false]; EvPrint "Rendering out" [];
     EvGetWriter "output_video.mp4" 25;
     EvAppendData (Arr3 [[[1%Q]]]); EvAppendData (Arr3 [[[2%Q]]]);
     EvCloseWriter].
Proof. split; vm_compute; reflexivity. Qed.

(** ** The further theorems at work on the small scene *)

Lemma to_cam_open3d_divides_witness :
  to_cam_open3d (ext := small_externals) two_cameras
  = Ok (map (cam_params (ext := small_externals)) two_cameras) /\
  to_cam_open3d (ext := linear_externals) [plain_camera; flat_camera]
  = Raise ZeroDivisionError.
Proof.
  split.
  - apply (proj1 (to_cam_open3d_divides (ext := small_externals) two_cameras)).
    repeat constructor; intros [H|H]; vm_compute in H; discriminate H.
  - apply (proj2 (to_cam_open3d_divides (ext := linear_externals)
                    [plain_camera; flat_camera])).
    apply Exists_cons_tl, Exists_cons_hd. left. vm_compute. reflexivity.
Defined.

Lemma extract_mesh_bounded_degenerate_witness :
  Exists (degenerate_fov (ext := linear_externals)) (viewpoint_stack (self flat_world)) /\
  extract_mesh_bounded (ext := linear_externals) (4 # 1000) (2 # 100) 6 true flat_world
  = (Raise ZeroDivisionError,
     set_trace (trace flat_world ++ integration_banner (4 # 1000) (2 # 100) 6)
               flat_world).
Proof.
  assert (Exists (degenerate_fov (ext := linear_externals))
                 (viewpoint_stack (self flat_world))) as Hflat.
  { apply Exists_cons_tl, Exists_cons_hd. left. vm_compute. reflexivity. }
  split; [exact Hflat |].
  exact (extract_mesh_bounded_degenerate (ext := linear_externals) _ _ _ _ _ Hflat).
Defined.

Lemma extract_mesh_bounded_without_views_witness :
  viewpoint_stack (self empty_world) = [] /\
  exists l w',
    extract_mesh_bounded (ext := small_externals) (4 # 1000) (2 # 100) 6 true
                         empty_world = (Ok l, w') /\
    heap empty_world !! l = None /\
    heap w' !! l = Some {| vertices := []; triangles := []; vertex_colors := [] |} /\
    self w' = self empty_world /\
    trace w' = integration_banner (4 # 1000) (2 # 100) 6.
Proof.
  split; [reflexivity |].
  exact (extract_mesh_bounded_without_views (ext := small_externals)
           (4 # 1000) (2 # 100) 6 true empty_world eq_refl).
Defined.




Lemma reconstruction_starts_afresh_witness :
  reconstruction (ext := small_externals) two_cameras tt [0; 0; 0]%Q mlp_deform
                 "mesh" true (set_self (self fused_world) empty_world)
  = (Ok tt, reconstructed_world).
Proof.
  rewrite (proj1 (reconstruction_starts_afresh (ext := small_externals) two_cameras
                    tt [0; 0; 0]%Q mlp_deform "mesh" true empty_world
                    (self fused_world) eq_refl)).
  vm_compute. reflexivity.
Defined.

Lemma reconstruction_unknown_deform_witness :
  reconstruction (ext := small_externals) two_cameras tt [0; 0; 0]%Q rigid_deform
                 "mesh" true empty_world
  = (Raise (UnboundLocalError "time_input2"),
     set_self (set_viewpoint_stack two_cameras (cleaned (self empty_world)))
              empty_world).
Proof.
  apply (reconstruction_unknown_deform (ext := small_externals)
           masked_camera [plain_camera] tt [0; 0; 0]%Q rigid_deform "mesh" true
           empty_world); simpl; discriminate.
Defined.

Lemma reconstruction_completes_iff_witness :
  two_cameras <> [] /\
  exists pkgs,
    Forall2 (rendered (ext := small_externals) one_gaussian tt [0; 0; 0]%Q
                      mlp_deform "mesh" true) two_cameras pkgs /\
    uniform (map rgb_of pkgs) /\ uniform (map pkg_depth pkgs) /\
    uniform (map pkg_alpha pkgs) /\ uniform (map pkg_surf_normal pkgs).
Proof.
  apply (proj1 (reconstruction_completes_iff (ext := small_externals) two_cameras
                  tt [0; 0; 0]%Q mlp_deform "mesh" true empty_world)).
  exists reconstructed_world. vm_compute. reflexivity.
Defined.

Lemma post_process_mesh_extremes_witness :
  (exists l' w',
     post_process_mesh (ext := small_externals) 1%positive 1 mesh_world = (Ok l', w') /\
     heap w' !! l' = Some three_triangles) /\
  (exists l' w',
     post_process_mesh (ext := small_externals) 1%positive 3 mesh_world = (Ok l', w') /\
     heap w' !! l'
     = Some {| vertices := vertices three_triangles; triangles := [];
               vertex_colors := [] |}).
Proof.
  split.
  - destruct (post_process_mesh_extremes (ext := small_externals) 1%positive 1
                mesh_world three_triangles [0; 0; 1]%Z [2; 1]%Z [0; 0]%Q)
      as (l' & w' & Hrun & Hall & _).
    + reflexivity.
    + reflexivity.
    + reflexivity.
    + repeat constructor; simpl; lia.
    + exists l', w'. split; [exact Hrun |].
      rewrite Hall by (repeat constructor; lia). reflexivity.
  - destruct (post_process_mesh_extremes (ext := small_externals) 1%positive 3
                mesh_world three_triangles [0; 0; 1]%Z [2; 1]%Z [0; 0]%Q)
      as (l' & w' & Hrun & _ & Hnone).
    + reflexivity.
    + reflexivity.
    + reflexivity.
    + repeat constructor; simpl; lia.
    + exists l', w'. split; [exact Hrun |].
      rewrite Hnone by (repeat constructor; lia). reflexivity.
Defined.

Lemma clean_mesh_in_place_witness :
  fst (clean_mesh (ext := small_externals) (cext := small_clean_externals)
                  1%positive (1 # 1000) 0 true mesh_world)
  = Ok (RaisesNameError "name 'o3d_to_trimesh' is not defined") /\
  fst (clean_mesh (ext := small_externals) (cext := small_clean_externals)
                  1%positive (1 # 1000) 0 false mesh_world)
  = Ok (Returns 1%positive).
Proof.
  split.
  - rewrite (clean_mesh_in_place (ext := small_externals)
               (cext := small_clean_externals) 1%positive (1 # 1000) 0 true
               mesh_world three_triangles); [reflexivity | reflexivity | lia].
  - rewrite (clean_mesh_in_place (ext := small_externals)
               (cext := small_clean_externals) 1%positive (1 # 1000) 0 false
               mesh_world three_triangles); [reflexivity | reflexivity | lia].
Defined.

Lemma main_without_skip_mesh_raises_witness :
  skip_mesh mesh_only_args = false /\
  always_raises (main (ext := small_externals) mesh_only_args).
Proof.
  split; [reflexivity |].
  apply (main_without_skip_mesh_raises (ext := small_externals)). reflexivity.
Defined.

Lemma main_needs_transforms_test_witness :
  fst (main (ext := small_externals) video_only_args empty_world)
  = Raise (FileNotFoundError "data/transforms_test.json").
Proof.
  apply (main_needs_transforms_test (ext := small_externals) video_only_args
           empty_world); reflexivity.
Defined.

Lemma frame_names_distinct_witness :
  fmt05 3 = fmt05 (1 + 2) /\ 3 = 1 + 2 /\ fmt05 3 <> fmt05 12.
Proof.
  split; [reflexivity |]. split.
  - apply (proj1 (frame_names_distinct 3 (1 + 2))). reflexivity.
  - intros H. apply (proj1 (frame_names_distinct 3 12)) in H. discriminate H.
Defined.

Lemma assemble_video_missing_frame_witness :
  length (listdir "out/mesh_shape" gap_world) = 2 /\
  assemble_video (ext := small_externals) "out/mesh_shape" gap_world
  = (Raise (FileNotFoundError "out/mesh_shape/00001.png"), gap_world).
Proof.
  split; [vm_compute; reflexivity |].
  apply (assemble_video_missing_frame (ext := small_externals) "out/mesh_shape"
           gap_world 1).
  - vm_compute. lia.
  - vm_compute. reflexivity.
  - intros j Hj. assert (j = 0) as -> by lia.
    exists (Written cv2_imwrite (Arr3 [[[1%Q]]])), (Arr3 [[[1%Q]]]).
    split; vm_compute; reflexivity.
Defined.

Lemma export_image_writes_each_view_witness :
  export_image "out" reconstructed_world = (Ok tt, exported_world) /\
  fs exported_world !! "out/renders/00001.png"
  = Some (Written save_img_u8 (Arr3 [[[1; 1 # 4; 0]]]%Q)) /\
  fs exported_world !! "out/gt/00001.png"
  = Some (Written save_img_u8 (Arr3 [[[1; 1; 1]]]%Q)).
Proof.
  assert (export_image "out" reconstructed_world = (Ok tt, exported_world))
    as Hrun by (vm_compute; reflexivity).
  split; [exact Hrun |].
  destruct (export_image_writes_each_view "out" reconstructed_world exported_world
              1 plain_camera Hrun eq_refl) as (rgb & Hrgb & Hrender & Hgt).
  vm_compute in Hrgb. injection Hrgb as <-.
  split; [exact Hrender | exact Hgt].
Defined.

